(** * Pure Storage FlashArray Nagios plugins: a shallow embedding

  The two plugins of the repository, [check_purefa_alert.py] and
  [check_purefa_occpy.py], are embedded as Rocq functions.  Python
  dictionaries are finite maps, Python exceptions are an error result,
  the mutable counters of a [PureFAalert] instance are an explicit state,
  and every call made on the REST client is recorded in a trace.  Python
  floats are IEEE binary64 numbers (Rocq's primitive floats). *)

From Stdlib Require Import ZArith QArith Floats Ascii Lia Permutation.
From stdpp Require Import gmap strings list.

Local Open Scope Z_scope.

(* ===================================================================== *)
(** * Part I: definitions                                                 *)
(* ===================================================================== *)

(** ** The Python runtime the plugins rely on *)

Module Py.

(** The exception classes that can occur in the two plugins.  [PureError]
    stands for whatever the REST client raises (transport, HTTP status,
    authentication); the plugins never look at its class, only at its
    text [str(e)]. *)
Inductive exn_kind : Set :=
| CheckError | KeyError | TypeError | ZeroDivisionError
| OverflowError | IndexError | PureError.

Record exn : Set := Exn { kind : exn_kind; text : string }.

Inductive result (A : Type) : Type :=
| Ok (a : A)
| Raise (e : exn).
Arguments Ok {A} a.
Arguments Raise {A} e.

(** A Python number: the plugins produce [int]s (alert counts, byte
    counts) and [float]s (percentages). *)
Inductive number : Set :=
| Int (z : Z)
| Float (f : float).

(** The double quote character, used in the f-string of the REST error. *)
Definition dquote : string :=
  String (Ascii.Ascii false true false false false true false false)
         EmptyString.

(** *** Floats *)

(** The correctly rounded (to nearest, ties to even) binary64 value of the
    positive rational [num / den], with sign [s]: the quotient is computed
    with at least three extra bits, the last one sticky. *)
Definition nearest_float (s : bool) (num den : positive) : float :=
  let k := Z.max 0 (56 + Z.log2 (Zpos den) - Z.log2 (Zpos num))%Z in
  let scaled := (Zpos num * 2 ^ k)%Z in
  let q := (scaled / Zpos den)%Z in
  let sticky := (if scaled mod Zpos den =? 0 then 0 else 1)%Z in
  match (2 * q + sticky)%Z with
  | Zpos m => SF2Prim (binary_round prec emax s m (- (k + 1))%Z)
  | _ => SF2Prim (S754_zero s)
  end.

(** [float(z)] for a Python int: the nearest double, [OverflowError] when
    the int is too large. *)
Definition float_of_int (z : Z) : result float :=
  let f := SF2Prim (binary_normalize prec emax z 0 false) in
  if is_infinity f
  then Raise (Exn OverflowError "int too large to convert to float")
  else Ok f.

(** [float(x)] where [x] is the result of [dict.get]: [None] when the key
    is missing, which [float] rejects. *)
Definition float_ (x : option Z) : result float :=
  match x with
  | Some z => float_of_int z
  | None =>
      Raise (Exn TypeError
        "float() argument must be a string or a real number, not 'NoneType'")
  end.

(** [int(x)] on the result of [dict.get]. *)
Definition int_ (x : option Z) : result Z :=
  match x with
  | Some z => Ok z
  | None =>
      Raise (Exn TypeError
        "int() argument must be a string, a bytes-like object or a real number, not 'NoneType'")
  end.

(** [a / b] on floats. *)
Definition truediv (a b : float) : result float :=
  if is_zero b
  then Raise (Exn ZeroDivisionError "float division by zero")
  else Ok (a / b)%float.

(** Rounding half to even of the non-negative rational [num / den] to an
    integer. *)
Definition round_half_even (num den : Z) : Z :=
  let q := num / den in
  let r := num mod den in
  match 2 * r ?= den with
  | Lt => q
  | Gt => q + 1
  | Eq => if Z.even q then q else q + 1
  end.

(** [round(x, ndigits)] on a float, for [ndigits >= 0]: CPython prints the
    exact value of [x] with [ndigits] decimals, rounding half to even, and
    reads the decimal string back as the nearest double.  Zeros,
    infinities and NaN round to themselves. *)
Definition round (x : float) (ndigits : Z) : float :=
  match Prim2SF x with
  | S754_finite s m e =>
      let p := (10 ^ ndigits)%Z in
      let n :=
        (if 0 <=? e then Zpos m * 2 ^ e * p
         else round_half_even (Zpos m * p) (2 ^ (- e)))%Z in
      match n, p with
      | Zpos n', Zpos p' => nearest_float s n' p'
      | _, _ => SF2Prim (S754_zero s)
      end
  | _ => x
  end.

(** [x * 100] with [x] a float: the int operand is converted first. *)
Definition mul_int (x : float) (k : Z) : float :=
  (x * SF2Prim (binary_normalize prec emax k 0 false))%float.

End Py.

(** ** The REST client ([purestorage]) as seen by the plugins

  The client is an external collaborator: a [FlashArray] value fixes what
  each of its calls answers, a payload or an exception.  An alert record
  and a space record are JSON objects, that is dictionaries keyed by
  field name; space counters are integers (byte counts). *)

Module purestorage.
Import Py.

Record FlashArray : Type := {
  (** [purestorage.FlashArray(endpoint, api_token=apitoken)]: opens the
      session. *)
  connect : string -> string -> result unit;
  (** [fa.list_messages(open = True)]; [None] is Python's [None]. *)
  list_messages : result (option (list (gmap string string)));
  (** [fa.get(space=True)]: a list of space records. *)
  get : result (list (gmap string Z));
  (** [fa.get_volume(volname, space=True)]. *)
  get_volume : string -> result (gmap string Z);
  (** [fa.invalidate_cookie()]. *)
  invalidate_cookie : result unit
}.

(** The calls a plugin makes on the client, as recorded in the trace. *)
Inductive call : Set :=
| CallFlashArray (endpoint api_token : string)
| CallListMessages
| CallGet
| CallGetVolume (volname : string)
| CallInvalidateCookie.

End purestorage.

(** ** Programs: state, exceptions and the trace of REST calls

  A program runs on the state of [self], returns a value or raises, and
  leaves the state as the statements executed so far have made it (an
  exception does not roll anything back). *)

Module Eff.
Import Py purestorage.

Definition prog (S A : Type) : Type := S -> result A * S * list call.

Section Ops.
Context {S : Type}.

Definition ret {A} (a : A) : prog S A := fun s => (Ok a, s, []).

Definition raise {A} (e : exn) : prog S A := fun s => (Raise e, s, []).

Definition bind {A B} (m : prog S A) (f : A -> prog S B) : prog S B :=
  fun s =>
    match m s with
    | (Ok a, s', t) =>
        let '(r, s'', t') := f a s' in (r, s'', t ++ t')
    | (Raise e, s', t) => (Raise e, s', t)
    end.

(** A value computed by the runtime, which may raise. *)
Definition lift {A} (r : result A) : prog S A := fun s => (r, s, []).

(** One call on the REST client, answered by the array. *)
Definition perform {A} (c : call) (r : result A) : prog S A :=
  fun s => (r, s, [c]).

Definition get_self : prog S S := fun s => (Ok s, s, []).

Definition modify (f : S -> S) : prog S unit := fun s => (Ok tt, f s, []).

(** [try: body  except Exception as e: handler e]. *)
Definition try_except {A} (body : prog S A) (handler : exn -> prog S A)
  : prog S A :=
  fun s =>
    match body s with
    | (Ok a, s', t) => (Ok a, s', t)
    | (Raise e, s', t) =>
        let '(r, s'', t') := handler e s' in (r, s'', t ++ t')
    end.

(** [for x in l: body x]. *)
Fixpoint for_each {B} (l : list B) (body : B -> prog S unit)
  : prog S unit :=
  match l with
  | [] => ret tt
  | x :: l' => bind (body x) (fun _ => for_each l' body)
  end.
End Ops.

(** [d[k]] on a dictionary with string values. *)
Definition getitem (d : gmap string string) (k : string) : result string :=
  match d !! k with
  | Some v => Ok v
  | None => Raise (Exn KeyError ("'" +:+ k +:+ "'"))
  end.

(** [l[0]] on a list. *)
Definition first {A} (l : list A) : result A :=
  match l with
  | x :: _ => Ok x
  | [] => Raise (Exn IndexError "list index out of range")
  end.

Declare Scope prog_scope.
Delimit Scope prog_scope with prog.
Notation "x <- m ;; k" := (bind m (fun x => k))
  (at level 100, m at next level, right associativity) : prog_scope.
Notation "m ;;; k" := (bind m (fun _ => k))
  (at level 100, right associativity) : prog_scope.

(** Running a program: its outcome, final state and trace. *)
Definition outcome {S A} (r : result A * S * list call) : result A := r.1.1.
Definition final {S A} (r : result A * S * list call) : S := r.1.2.
Definition trace {S A} (r : result A * S * list call) : list call := r.2.

End Eff.

(** ** The plugin framework ([nagiosplugin])

  The plugins build on the [nagiosplugin] framework, whose code is not
  part of the repository.  [Metric] and [CheckError] are given as the
  plugins use them; the range grammar, the threshold evaluator and the
  verdict aggregator follow the specification. *)

Module nagiosplugin.
Import Py.

(** [nagiosplugin.Metric(name, value, uom, min=..., max=..., context=...)]
    as the plugins construct it: [uom] is the third positional argument,
    the unit; an argument that is not passed is [None]. *)
Record Metric : Set := mkMetric {
  name : string;
  value : number;
  uom : option string;
  min : option Z;
  max : option Z;
  context : option string
}.

(** [nagiosplugin.CheckError(msg)]. *)
Definition CheckError_ (msg : string) : exn := Exn CheckError msg.

(** Modelled from the spec: the data model's Verdict, "one of OK, WARNING,
    CRITICAL, UNKNOWN" (the framework's state objects are missing). *)
Inductive Verdict : Set := OK | WARNING | CRITICAL | UNKNOWN.

(** *** Values on the extended real line *)

(** Modelled from the spec: the point of "the real line" a Metric's value
    is, for the Range test (the framework's comparison is missing).  A
    float that is an infinity lies beyond every number, and a comparison
    with NaN is false whatever the other side. *)
Inductive xval : Set :=
| NaN
| NegInf
| Fin (q : Q)
| PosInf.

(** The rational [(-1)^s * m * 2^e]. *)
Definition Q_of_float_parts (s : bool) (m : positive) (e : Z) : Q :=
  let a :=
    match e with
    | Zneg d => Zpos m # (2 ^ d)%positive
    | _ => inject_Z (Zpos m * 2 ^ e)
    end in
  if s then Qopp a else a.

(** Modelled from the spec: the value of a Python number on that line,
    exactly (the framework's comparison is missing). *)
Definition xval_of (v : number) : xval :=
  match v with
  | Int z => Fin (inject_Z z)
  | Float f =>
      match Prim2SF f with
      | S754_nan => NaN
      | S754_infinity s => if s then NegInf else PosInf
      | S754_zero _ => Fin 0%Q
      | S754_finite s m e => Fin (Q_of_float_parts s m e)
      end
  end.

(** *** Range Parser *)

(** Modelled from the spec: the Range of the data model, "an acceptable
    interval on the real line", "open-ended on either side", possibly
    inverted; "an absent/empty expression means no threshold, always
    acceptable" (the framework's Range class is missing).  A bound [None]
    is the infinity of its side. *)
Inductive Range : Set :=
| NoThreshold
| Interval (invert : bool) (start end_ : option Q).

(** Modelled from the spec: [start <= v] of the Range test, with [None]
    for negative infinity (the framework's Range class is missing). *)
Definition start_le (lo : option Q) (v : xval) : bool :=
  match v with
  | NaN => false
  | NegInf => match lo with None => true | Some _ => false end
  | Fin q => match lo with None => true | Some a => Qle_bool a q end
  | PosInf => true
  end.

(** Modelled from the spec: [v <= end] of the Range test, with [None] for
    positive infinity (the framework's Range class is missing). *)
Definition le_end (v : xval) (hi : option Q) : bool :=
  match v with
  | NaN => false
  | NegInf => true
  | Fin q => match hi with None => true | Some b => Qle_bool q b end
  | PosInf => match hi with None => true | Some _ => false end
  end.

(** Modelled from the spec: the Range predicate [accepts(value)] of the
    Range Parser's contract, "accepts iff start <= value <= end", a
    leading "@" inverting the test. *)
Definition accepts (r : Range) (v : xval) : bool :=
  match r with
  | NoThreshold => true
  | Interval invert start end_ =>
      xorb invert (start_le start v && le_end v end_)
  end.

(** Modelled from the spec: the test behind "Fails with ParseError when
    start > end", infinities included (the framework's parser is
    missing). *)
Definition bounds_ordered (lo hi : option Q) : bool :=
  match lo, hi with
  | Some a, Some b => Qle_bool a b
  | _, _ => true
  end.

(** Splitting a string at the first occurrence of a character: the text
    before it and the text after it. *)
Fixpoint split_at (c : ascii) (s : string) : option (string * string) :=
  match s with
  | EmptyString => None
  | String d s' =>
      if Ascii.eqb d c then Some (EmptyString, s')
      else
        match split_at c s' with
        | Some (a, b) => Some (String d a, b)
        | None => None
        end
  end.

(** The value of a decimal digit. *)
Definition digit (c : ascii) : option Z :=
  let n := Z.of_nat (nat_of_ascii c) in
  if (48 <=? n) && (n <=? 57) then Some (n - 48) else None.

(** The number a string of decimal digits writes, after [acc]. *)
Fixpoint digits (s : string) (acc : Z) : option Z :=
  match s with
  | EmptyString => Some acc
  | String c s' =>
      match digit c with
      | Some d => digits s' (10 * acc + d)
      | None => None
      end
  end.

(** A non-empty string of decimal digits. *)
Definition natural (s : string) : option Z :=
  match s with
  | EmptyString => None
  | _ => digits s 0
  end.

(** Modelled from the spec: an unsigned decimal numeral, digits
    optionally followed by "." and digits (the framework's parser is
    missing). *)
Definition unsigned (s : string) : option Q :=
  match split_at "." s with
  | None =>
      match natural s with
      | Some a => Some (inject_Z a)
      | None => None
      end
  | Some (i, f) =>
      match natural i, natural f with
      | Some a, Some b =>
          let p := (10 ^ Pos.of_nat (String.length f))%positive in
          Some ((a * Zpos p + b) # p)
      | _, _ => None
      end
  end.

(** Modelled from the spec: the "number" of the range grammar, a decimal
    numeral with an optional sign (the framework's parser is missing). *)
Definition parse_number (s : string) : option Q :=
  match s with
  | String "-" s' =>
      match unsigned s' with
      | Some q => Some (Qopp q)
      | None => None
      end
  | _ => unsigned s
  end.

(** Modelled from the spec: the start of "start:end" (the framework's
    parser is missing).  Omitted, it is the metric's declared min or
    negative infinity; "~" is negative infinity; a negative number is
    refused. *)
Definition parse_start (mn : option Z) (s : string) : option (option Q) :=
  if String.eqb s "" then Some (option_map inject_Z mn)
  else if String.eqb s "~" then Some None
  else
    match parse_number s with
    | Some a => if Qle_bool 0 a then Some (Some a) else None
    | None => None
    end.

(** Modelled from the spec: the end of "start:end" (the framework's parser
    is missing).  Omitted, it is the metric's declared max or positive
    infinity; "~" is positive infinity. *)
Definition parse_end (mx : option Z) (s : string) : option (option Q) :=
  if String.eqb s "" then Some (option_map inject_Z mx)
  else if String.eqb s "~" then Some None
  else
    match parse_number s with
    | Some b => Some (Some b)
    | None => None
    end.

(** Modelled from the spec: "start:end", or a single number N for "0:N"
    (the framework's parser is missing); [None] when the string is not of
    this form or start > end. *)
Definition parse_interval (mn mx : option Z) (s : string)
  : option (option Q * option Q) :=
  match split_at ":" s with
  | Some (a, b) =>
      match parse_start mn a, parse_end mx b with
      | Some lo, Some hi =>
          if bounds_ordered lo hi then Some (lo, hi) else None
      | _, _ => None
      end
  | None =>
      match parse_number s with
      | Some n =>
          if bounds_ordered (Some 0%Q) (Some n)
          then Some (Some 0%Q, Some n) else None
      | None => None
      end
  end.

(** Modelled from the spec: the Range Parser of section 4.1, "given a
    threshold expression string (possibly empty) and a Metric's declared
    min/max" (the framework's parser is missing).  [None] is ParseError. *)
Definition parse (mn mx : option Z) (s : string) : option Range :=
  match s with
  | EmptyString => Some NoThreshold
  | String "@" s' =>
      match parse_interval mn mx s' with
      | Some (lo, hi) => Some (Interval true lo hi)
      | None => None
      end
  | _ =>
      match parse_interval mn mx s with
      | Some (lo, hi) => Some (Interval false lo hi)
      | None => None
      end
  end.

(** *** Threshold Evaluator *)

(** Modelled from the spec: "either may be absent meaning no threshold"
    (the framework's ScalarContext is missing); an absent range accepts
    every value. *)
Definition accepts_opt (r : option Range) (v : xval) : bool :=
  match r with
  | Some r' => accepts r' v
  | None => true
  end.

(** Modelled from the spec: the Threshold Evaluator of section 4.4,
    "test critical first" (the framework's ScalarContext.evaluate is
    missing). *)
Definition evaluate (m : Metric) (warning critical : option Range)
  : Verdict :=
  if negb (accepts_opt critical (xval_of (value m))) then CRITICAL
  else if negb (accepts_opt warning (xval_of (value m))) then WARNING
  else OK.

(** *** Verdict Aggregator *)

(** Modelled from the spec: the severity order OK < WARNING < CRITICAL of
    the data model, with UNKNOWN, which "overrides everything", above all
    of them (the framework's state objects are missing). *)
Definition rank (v : Verdict) : Z :=
  match v with
  | OK => 0
  | WARNING => 1
  | CRITICAL => 2
  | UNKNOWN => 3
  end.

(** Modelled from the spec: the more severe of two verdicts in that order
    (the framework's state objects are missing). *)
Definition worse (a b : Verdict) : Verdict :=
  if rank a <? rank b then b else a.

(** Modelled from the spec: the Verdict Aggregator of section 4.5,
    "overall = max severity across all Verdicts (with UNKNOWN dominating
    absolutely if any component signaled it, including total absence of
    any metric)" (the framework's Check is missing). *)
Definition aggregate (vs : list Verdict) : Verdict :=
  match vs with
  | [] => UNKNOWN
  | v :: vs' => fold_left worse vs' v
  end.

(** *** Contexts and the check *)

(** [nagiosplugin.ScalarContext(name, warning, critical)] as the plugins
    construct it: the two range expressions are [None] when the option was
    not given. *)
Record ScalarContext : Set := mkScalarContext {
  ctx_name : string;
  warning : option string;
  critical : option string
}.

(** Modelled from the spec: "exactly one Metric maps to exactly one named
    range-context (by name)" (the framework's Check is missing); a metric
    constructed with [context=...] names its context itself. *)
Definition context_of (m : Metric) : string :=
  match context m with
  | Some c => c
  | None => name m
  end.

(** Modelled from the spec: the context of that name among those of the
    check (the framework's Check is missing). *)
Definition find_context (cs : list ScalarContext) (n : string)
  : option ScalarContext :=
  List.find (fun c => String.eqb (ctx_name c) n) cs.

(** Modelled from the spec: a range expression of a context, parsed for a
    metric with its declared min and max; the range is absent when the
    option was not given (the framework's ScalarContext is missing). *)
Definition range_of (m : Metric) (expr : option string)
  : option (option Range) :=
  match expr with
  | None => Some None
  | Some s =>
      match parse (min m) (max m) s with
      | Some r => Some (Some r)
      | None => None
      end
  end.

(** Modelled from the spec: the pairing of a Metric with "zero, one, or
    two range expressions" and its scoring; a ParseError is fatal and
    gives UNKNOWN (the framework's Check is missing). *)
Definition score (cs : list ScalarContext) (m : Metric) : Verdict :=
  match find_context cs (context_of m) with
  | None => evaluate m None None
  | Some c =>
      match range_of m (warning c), range_of m (critical c) with
      | Some w, Some k => evaluate m w k
      | _, _ => UNKNOWN
      end
  end.

(** Modelled from the spec: one check invocation, fetch, score and
    aggregate; a failure of the Metric Source is fatal and gives UNKNOWN
    (the framework's Check.main and guarded are missing). *)
Definition check_main (cs : list ScalarContext)
    (probed : result (list Metric)) : Verdict :=
  match probed with
  | Ok metrics => aggregate (List.map (score cs) metrics)
  | Raise _ => UNKNOWN
  end.

End nagiosplugin.

(** ** check_purefa_alert.py *)

Module check_purefa_alert.
Import Py purestorage Eff nagiosplugin.
Local Open Scope prog_scope.

(** The attributes of a [PureFAalert] instance that the plugin reads or
    writes (the logger is set up and never used). *)
Record PureFAalert : Set := {
  endpoint : string;
  apitoken : string;
  info : Z;
  warn : Z;
  crit : Z
}.

Definition __init__ (endpoint apitoken : string) : PureFAalert :=
  {| endpoint := endpoint; apitoken := apitoken;
     info := 0; warn := 0; crit := 0 |}.

Definition incr_crit (self : PureFAalert) : PureFAalert :=
  {| endpoint := endpoint self; apitoken := apitoken self;
     info := info self; warn := warn self; crit := crit self + 1 |}.
Definition incr_warn (self : PureFAalert) : PureFAalert :=
  {| endpoint := endpoint self; apitoken := apitoken self;
     info := info self; warn := warn self + 1; crit := crit self |}.
Definition incr_info (self : PureFAalert) : PureFAalert :=
  {| endpoint := endpoint self; apitoken := apitoken self;
     info := info self + 1; warn := warn self; crit := crit self |}.

(** The message of the [CheckError] raised when the REST call fails:
    [f'FA REST call returned "{e}"']. *)
Definition rest_error (e : exn) : exn :=
  CheckError_ ("FA REST call returned " +:+ dquote +:+ text e +:+ dquote).

Definition get_alerts (fa : FlashArray)
  : prog PureFAalert (option (list (gmap string string))) :=
  try_except
    (self <- get_self ;;
     perform (CallFlashArray (endpoint self) (apitoken self))
             (connect fa (endpoint self) (apitoken self)) ;;;
     fainfo <- perform CallListMessages (list_messages fa) ;;
     perform CallInvalidateCookie (invalidate_cookie fa) ;;;
     ret fainfo)
    (fun e => raise (rest_error e)).

(** [not fainfo]: [None] and the empty list are falsy. *)
Definition falsy (fainfo : option (list (gmap string string))) : bool :=
  match fainfo with
  | None | Some [] => true
  | Some (_ :: _) => false
  end.

Definition records (fainfo : option (list (gmap string string)))
  : list (gmap string string) :=
  match fainfo with Some l => l | None => [] end.

(** The body of the loop over the alerts. *)
Definition count_alert (alert : gmap string string)
  : prog PureFAalert unit :=
  s1 <- lift (getitem alert "current_severity") ;;
  if String.eqb s1 "critical" then modify incr_crit
  else
    s2 <- lift (getitem alert "current_severity") ;;
    if String.eqb s2 "warning" then modify incr_warn
    else
      s3 <- lift (getitem alert "current_severity") ;;
      if String.eqb s3 "info" then modify incr_info
      else ret tt.

Definition probe (fa : FlashArray) : prog PureFAalert (list Metric) :=
  fainfo <- get_alerts fa ;;
  if falsy fainfo then
    ret [mkMetric "critical" (Int 0) None (Some 0) None None;
         mkMetric "warning" (Int 0) None (Some 0) None None;
         mkMetric "info" (Int 0) None (Some 0) None None]
  else
    for_each (records fainfo) count_alert ;;;
    self <- get_self ;;
    ret [mkMetric "critical" (Int (crit self)) None (Some 0) None None;
         mkMetric "warning" (Int (warn self)) None (Some 0) None None;
         mkMetric "info" (Int (info self)) None (Some 0) None None].

(** The parsed command line ([parse_args]): the six range options are
    [None] unless given; [--verbose] and [--timeout] only drive the
    report and the watchdog. *)
Record Args : Set := {
  args_endpoint : string;
  args_apitoken : string;
  warning_crit : option string;
  critical_crit : option string;
  warning_warn : option string;
  critical_warn : option string;
  warning_info : option string;
  critical_info : option string
}.

(** [parse_args] on a command line that gives the two positional
    arguments and, for each range option, its value or nothing: an option
    that is not given is [None]. *)
Definition parse_args (endpoint apitoken : string)
    (warning_crit critical_crit warning_warn critical_warn
     warning_info critical_info : option string) : Args :=
  {| args_endpoint := endpoint; args_apitoken := apitoken;
     warning_crit := warning_crit; critical_crit := critical_crit;
     warning_warn := warning_warn; critical_warn := critical_warn;
     warning_info := warning_info; critical_info := critical_info |}.

(** [main]: one check of a new [PureFAalert] against the three contexts;
    the result is the overall verdict of the check. *)
Definition main (args : Args) (fa : FlashArray) : Verdict :=
  check_main
    [mkScalarContext "critical" (warning_crit args) (critical_crit args);
     mkScalarContext "warning" (warning_warn args) (critical_warn args);
     mkScalarContext "info" (warning_info args) (critical_info args)]
    (outcome (probe fa (__init__ (args_endpoint args) (args_apitoken args)))).

(** The state of an instance after [n] successive calls of [probe]. *)
Fixpoint after (fa : FlashArray) (n : nat) (self : PureFAalert)
  : PureFAalert :=
  match n with
  | O => self
  | S k => final (probe fa (after fa k self))
  end.

(** What the call number [n] (counted from 1) of [probe] returns on an
    instance that was [self] before the first call. *)
Definition nth_call (fa : FlashArray) (n : nat) (self : PureFAalert)
  : result (list Metric) :=
  outcome (probe fa (after fa (Nat.pred n) self)).

(** The number of records whose [current_severity] is [sev]. *)
Definition count (sev : string) (l : list (gmap string string)) : Z :=
  Z.of_nat
    (length
       (List.filter
          (fun a => bool_decide (a !! "current_severity" = Some sev)) l)).

(** An instance with its three counters advanced. *)
Definition add_counts (self : PureFAalert) (c w i : Z) : PureFAalert :=
  {| endpoint := endpoint self; apitoken := apitoken self;
     info := info self + i; warn := warn self + w; crit := crit self + c |}.

(** The data source's contract for an alert record: a [current_severity]
    field valued critical, warning or info. *)
Definition well_formed (a : gmap string string) : Prop :=
  a !! "current_severity" = Some "critical"
  \/ a !! "current_severity" = Some "warning"
  \/ a !! "current_severity" = Some "info".

(** The three metrics with the given values. *)
Definition metrics (c w i : Z) : list Metric :=
  [mkMetric "critical" (Int c) None (Some 0) None None;
   mkMetric "warning" (Int w) None (Some 0) None None;
   mkMetric "info" (Int i) None (Some 0) None None].

End check_purefa_alert.

(** ** check_purefa_occpy.py *)

Module check_purefa_occpy.
Import Py purestorage Eff nagiosplugin.
Local Open Scope prog_scope.

(** A [PureFAoccpy] instance; none of its attributes is ever written
    after construction.  [volname] is [None] when [--vol] is omitted. *)
Record PureFAoccpy : Set := {
  endpoint : string;
  apitoken : string;
  volname : option string;
  percentage : bool
}.

Definition __init__ (endpoint apitoken : string) (volname : option string)
    (percentage : bool) : PureFAoccpy :=
  {| endpoint := endpoint; apitoken := apitoken;
     volname := volname; percentage := percentage |}.

Definition rest_error (e : exn) : exn :=
  CheckError_ ("FA REST call returned " +:+ dquote +:+ text e +:+ dquote).

Definition get_space (fa : FlashArray) : prog PureFAoccpy (gmap string Z) :=
  try_except
    (self <- get_self ;;
     perform (CallFlashArray (endpoint self) (apitoken self))
             (connect fa (endpoint self) (apitoken self)) ;;;
     fainfo <-
       match volname self with
       | None =>
           l <- perform CallGet (get fa) ;;
           lift (first l)
       | Some v => perform (CallGetVolume v) (get_volume fa v)
       end ;;
     perform CallInvalidateCookie (invalidate_cookie fa) ;;;
     ret fainfo)
    (fun e => raise (rest_error e)).

(** What [probe] returns: the empty string [''] or one [Metric]. *)
Inductive probe_result : Set :=
| EmptyStr
| OneMetric (metric : Metric).

(** [not fainfo] on a dictionary: only the empty one is falsy. *)
Definition falsy (fainfo : gmap string Z) : bool :=
  bool_decide (fainfo = ∅).

Definition probe (fa : FlashArray) : prog PureFAoccpy probe_result :=
  fainfo <- get_space fa ;;
  if falsy fainfo then ret EmptyStr
  else
    self <- get_self ;;
    match volname self with
    | None =>
        total <- lift (float_ (fainfo !! "total")) ;;
        capacity <- lift (float_ (fainfo !! "capacity")) ;;
        ratio <- lift (truediv total capacity) ;;
        let occupancy := mul_int (round ratio 2) 100 in
        ret (OneMetric
               (mkMetric "FA occupancy" (Float occupancy) (Some "%")
                         (Some 0) (Some 100) (Some "occupancy")))
    | Some v =>
        if percentage self then
          total <- lift (float_ (fainfo !! "total")) ;;
          size <- lift (float_ (fainfo !! "size")) ;;
          ratio <- lift (truediv total size) ;;
          let occupancy := mul_int (round ratio 2) 100 in
          ret (OneMetric
                 (mkMetric (v +:+ " occupancy") (Float occupancy) (Some "%")
                           (Some 0) (Some 100) (Some "occupancy")))
        else
          occupancy <- lift (int_ (fainfo !! "volumes")) ;;
          ret (OneMetric
                 (mkMetric (v +:+ " occupancy") (Int occupancy) (Some "B")
                           (Some 0) None (Some "occupancy")))
    end.

(** Modelled from the spec: what the check makes of the value [probe]
    returns, "an empty result" when it is the empty string, else the one
    metric (the framework's Check is missing). *)
Definition metrics_of (r : probe_result) : list Metric :=
  match r with
  | EmptyStr => []
  | OneMetric m => [m]
  end.

(** The parsed command line ([parse_args]): [--warning] and [--critical]
    default to the empty string, [--percentage] to [False], [--vol] to
    [None]. *)
Record Args : Set := {
  args_endpoint : string;
  args_apitoken : string;
  vol : option string;
  args_warning : string;
  args_critical : string;
  args_percentage : bool
}.

(** [parse_args] on a command line that gives the two positional
    arguments and, for each option, its value or nothing; [percentage] tells
    whether [-p] is present. *)
Definition parse_args (endpoint apitoken : string) (vol : option string)
    (warning critical : option string) (percentage : bool) : Args :=
  {| args_endpoint := endpoint; args_apitoken := apitoken; vol := vol;
     args_warning := default "" warning;
     args_critical := default "" critical;
     args_percentage := percentage |}.

(** Modelled from the spec: the Metric Source's result as the check reads
    it, the metrics or the failure (the framework's Check is missing). *)
Definition probed (fa : FlashArray) (self : PureFAoccpy)
  : result (list Metric) :=
  match outcome (probe fa self) with
  | Ok r => Ok (metrics_of r)
  | Raise e => Raise e
  end.

(** [main]: one check of a new [PureFAoccpy] against the context
    'occupancy'; the result is the overall verdict of the check. *)
Definition main (args : Args) (fa : FlashArray) : Verdict :=
  check_main
    [mkScalarContext "occupancy"
       (Some (args_warning args)) (Some (args_critical args))]
    (probed fa
       (__init__ (args_endpoint args) (args_apitoken args) (vol args)
                 (args_percentage args))).

End check_purefa_occpy.


(** ** Vocabulary *)

(** [needle] occurs in [hay]. *)
Definition contains (needle hay : string) : Prop :=
  exists pre post, hay = pre +:+ needle +:+ post.

(** [n] is an integer nearest to 100 times the number [m * 2^e]: that
    number itself when [e] is not negative, and otherwise an integer at a
    distance of at most one half from [100 * m / 2^(-e)]. *)
Definition nearest_hundredths (m : positive) (e : Z) (n : Z) : Prop :=
  if 0 <=? e then n = Zpos m * 2 ^ e * 100
  else Z.abs (2 * (Zpos m * 100) - 2 * n * 2 ^ (- e)) <= 2 ^ (- e).

(** The double nearest to [n / 100], with sign [s]. *)
Definition float_of_hundredths (s : bool) (n : Z) : float :=
  match n with
  | Zpos n' => Py.nearest_float s n' 100
  | _ => SF2Prim (S754_zero s)
  end.

(** [y] is [x] rounded to two decimal places: for a finite [x] that is not
    zero, the double nearest to [n / 100] for an integer [n] nearest to
    [100 * x]; a zero, an infinity or NaN is left as it is. *)
Definition rounded_to_2_decimals (x y : float) : Prop :=
  match Prim2SF x with
  | S754_finite s m e =>
      exists n, 0 <= n /\ nearest_hundredths m e n
                /\ y = float_of_hundredths s n
  | _ => y = x
  end.

(** ** Sample arrays *)

Module Samples.
Import Py purestorage.

(** A reachable array with the given open alerts and space record. *)
Definition reachable (alerts : option (list (gmap string string)))
    (space : gmap string Z) : FlashArray :=
  {| connect := fun _ _ => Ok tt;
     list_messages := Ok alerts;
     get := Ok [space];
     get_volume := fun _ => Ok space;
     invalidate_cookie := Ok tt |}.

(** An array that refuses the session with the given error text. *)
Definition unreachable (why : string) : FlashArray :=
  {| connect := fun _ _ => Raise (Exn PureError why);
     list_messages := Raise (Exn PureError why);
     get := Raise (Exn PureError why);
     get_volume := fun _ => Raise (Exn PureError why);
     invalidate_cookie := Raise (Exn PureError why) |}.

Definition alert (severity : string) : gmap string string :=
  {[ "current_severity" := severity ]}.

End Samples.

(** ** The [name] properties of the two resources *)

Module AlertResource.
Import check_purefa_alert.

(** [PureFAalert.name]. *)
Definition name (self : PureFAalert) : string := "PURE_FA_ALERT".

(** A record whose [current_severity] is one of the three values the loop
    of [probe] tests for. *)
Definition recognised (a : gmap string string) : bool :=
  match a !! "current_severity" with
  | Some sev =>
      String.eqb sev "critical" || String.eqb sev "warning"
      || String.eqb sev "info"
  | None => false
  end.

End AlertResource.

Module OccupancyResource.
Import check_purefa_occpy.

(** [PureFAoccpy.name]. *)
Definition name (self : PureFAoccpy) : string :=
  match volname self with
  | None => "PURE_FA_OCCUPANCY"
  | Some _ => "PURE_FA_VOL_OCCUPANCY"
  end.

End OccupancyResource.

(* ===================================================================== *)
(** * Part II: properties                                                 *)
(* ===================================================================== *)

(** ** Running programs *)

Section ProgFacts.
Import Py purestorage Eff.
Context {S : Type}.

Lemma run_eta {A} (r : result A * S * list call) :
  r = (outcome r, final r, trace r).
Proof. by destruct r as [[??]?]. Qed.

End ProgFacts.

(** ** The runtime model on sample values

    [round] reproduces CPython on the usual surprises of decimal rounding
    in binary: 0.125 is a tie and goes to the even 0.12, 2.675 lies below
    the tie, and 0.57 times 100 is not 57. *)

Module PyFacts.
Import Py.

Example round_quarter : round 0.25 2 = 0.25%float.
Proof. reflexivity. Qed.

(** [round(0.125, 2) == 0.12] *)
Example round_tie_to_even : round 0.125 2 = 0x1.eb851eb851eb8p-4%float.
Proof. reflexivity. Qed.

(** [round(2.675, 2) == 2.67] *)
Example round_below_tie :
  round 0x1.5666666666666p+1 2 = 0x1.55c28f5c28f5cp+1%float.
Proof. reflexivity. Qed.

(** [round(57 / 100, 2) * 100 == 56.99999999999999] *)
Example round_then_scale :
  mul_int (round (57 / 100) 2) 100 = 0x1.c7fffffffffffp+5%float.
Proof. reflexivity. Qed.

Example float_of_large_int :
  float_of_int (2 ^ 53 + 1) = Ok 0x1p+53%float.
Proof. reflexivity. Qed.

Example float_of_huge_int :
  float_of_int (2 ^ 1024) =
    Raise (Exn OverflowError "int too large to convert to float").
Proof. reflexivity. Qed.

Example divide_by_zero :
  truediv 50 0 = Raise (Exn ZeroDivisionError "float division by zero").
Proof. reflexivity. Qed.

End PyFacts.

(** ** The Alert Counter *)

Module AlertFacts.
Import Py purestorage Eff nagiosplugin check_purefa_alert.

Lemma count_nil sev : count sev [] = 0.
Proof. reflexivity. Qed.

Lemma count_cons sev a l :
  count sev (a :: l) =
  (if bool_decide (a !! "current_severity" = Some sev) then 1 else 0)
  + count sev l.
Proof.
  unfold count. simpl. destruct (bool_decide _); simpl length; lia.
Qed.

Lemma count_nonneg sev l : 0 <= count sev l.
Proof. unfold count. lia. Qed.

Lemma add_counts_0 self : add_counts self 0 0 0 = self.
Proof. destruct self. unfold add_counts. simpl. f_equal; lia. Qed.

Lemma add_counts_add self c w i c' w' i' :
  add_counts (add_counts self c w i) c' w' i' =
  add_counts self (c + c') (w + w') (i + i').
Proof. unfold add_counts. simpl. f_equal; lia. Qed.

(** One turn of the loop on a record that has the field: the counter of its
    severity goes up by one, no other. *)
Lemma count_alert_run a sev self :
  a !! "current_severity" = Some sev ->
  count_alert a self =
    (Ok tt,
     add_counts self (count "critical" [a]) (count "warning" [a])
                (count "info" [a]),
     []).
Proof.
  intros H. unfold count_alert, bind, lift, getitem, modify, ret.
  rewrite !count_cons, !count_nil, H.
  destruct (String.eqb_spec sev "critical") as [->|Hc].
  { simpl. destruct self; unfold add_counts, incr_crit; simpl.
    repeat f_equal; lia. }
  destruct (String.eqb_spec sev "warning") as [->|Hw].
  { simpl. destruct self; unfold add_counts, incr_warn; simpl.
    repeat f_equal; lia. }
  destruct (String.eqb_spec sev "info") as [->|Hi].
  { simpl. destruct self; unfold add_counts, incr_info; simpl.
    repeat f_equal; lia. }
  rewrite !bool_decide_eq_false_2 by congruence.
  simpl. by rewrite add_counts_0.
Qed.

(** The whole loop: each counter advances by the number of records of its
    severity. *)
Lemma loop_run l self :
  Forall (fun a => is_Some (a !! "current_severity")) l ->
  for_each l count_alert self =
    (Ok tt,
     add_counts self (count "critical" l) (count "warning" l)
                (count "info" l),
     []).
Proof.
  intros H. revert self. induction H as [|a l [sev Ha] _ IH]; intros self.
  - simpl. unfold ret. by rewrite !count_nil, add_counts_0.
  - simpl. unfold bind. rewrite (count_alert_run a sev self Ha), IH.
    rewrite add_counts_add. simpl.
    rewrite (count_cons _ a l), (count_cons "warning" a l),
      (count_cons "info" a l).
    rewrite !count_cons, !count_nil. repeat f_equal; lia.
Qed.

(** The loop can only fail on a record without the field. *)
Lemma count_alert_raises a s e :
  outcome (count_alert a s) = Raise e -> kind e = KeyError.
Proof.
  destruct (a !! "current_severity") as [sev|] eqn:Ha.
  - by rewrite (count_alert_run a sev s Ha).
  - unfold count_alert, bind, lift, getitem. rewrite Ha. cbn.
    by intros [= <-].
Qed.

Lemma loop_raises l s e :
  outcome (for_each l count_alert s) = Raise e -> kind e = KeyError.
Proof.
  revert s. induction l as [|a l IH]; intros s; [done|].
  cbn [for_each]. unfold bind.
  pose proof (count_alert_raises a s) as Ha.
  destruct (count_alert a s) as [[[[]|e1] s1] t1].
  - specialize (IH s1).
    destruct (for_each l count_alert s1) as [[r2 s2] t2]. exact IH.
  - intros H. apply Ha. exact H.
Qed.

(** The session of [get_alerts] when its three calls return. *)
Lemma get_alerts_ok fa self fainfo :
  connect fa (endpoint self) (apitoken self) = Ok tt ->
  list_messages fa = Ok fainfo ->
  invalidate_cookie fa = Ok tt ->
  get_alerts fa self =
    (Ok fainfo, self,
     [CallFlashArray (endpoint self) (apitoken self); CallListMessages;
      CallInvalidateCookie]).
Proof.
  intros H1 H2 H3.
  unfold get_alerts, try_except, bind, get_self, perform, ret.
  simpl. by rewrite H1, H2, H3.
Qed.

(** A call of [probe] on a reachable array: the counters advance by the
    counts of the records, and the metrics report the counters, unless
    there is no record at all. *)
Lemma probe_run fa self fainfo :
  connect fa (endpoint self) (apitoken self) = Ok tt ->
  list_messages fa = Ok fainfo ->
  invalidate_cookie fa = Ok tt ->
  Forall (fun a => is_Some (a !! "current_severity")) (records fainfo) ->
  let self' :=
    add_counts self (count "critical" (records fainfo))
               (count "warning" (records fainfo))
               (count "info" (records fainfo)) in
  probe fa self =
    (Ok (if falsy fainfo then metrics 0 0 0
         else metrics (crit self') (warn self') (info self')),
     self',
     [CallFlashArray (endpoint self) (apitoken self); CallListMessages;
      CallInvalidateCookie]).
Proof.
  intros H1 H2 H3 HF self'. unfold probe, bind.
  rewrite (get_alerts_ok fa self fainfo H1 H2 H3).
  destruct (falsy fainfo) eqn:Hf.
  - unfold ret. subst self'.
    assert (records fainfo = []) as ->
      by (by destruct fainfo as [[|]|]).
    by rewrite !count_nil, add_counts_0.
  - rewrite (loop_run _ self HF). unfold get_self, ret. simpl.
    reflexivity.
Qed.

Lemma after_run fa ep tok fainfo n :
  connect fa ep tok = Ok tt ->
  list_messages fa = Ok fainfo ->
  invalidate_cookie fa = Ok tt ->
  Forall (fun a => is_Some (a !! "current_severity")) (records fainfo) ->
  after fa n (__init__ ep tok) =
    add_counts (__init__ ep tok)
      (Z.of_nat n * count "critical" (records fainfo))
      (Z.of_nat n * count "warning" (records fainfo))
      (Z.of_nat n * count "info" (records fainfo)).
Proof.
  intros H1 H2 H3 HF. induction n as [|n IH].
  - simpl. by rewrite add_counts_0.
  - cbn [after]. rewrite IH.
    rewrite (probe_run fa _ fainfo); [|done..].
    unfold final. cbn [fst snd]. rewrite add_counts_add.
    f_equal; lia.
Qed.

(** Records that follow the contract are counted once each. *)
Lemma count_total l :
  Forall well_formed l ->
  count "critical" l + count "warning" l + count "info" l
  = Z.of_nat (length l).
Proof.
  induction 1 as [|a l Ha _ IH].
  - reflexivity.
  - rewrite !count_cons. cbn [length].
    destruct Ha as [Ha|[Ha|Ha]]; rewrite Ha;
      repeat case_bool_decide; simplify_eq; lia.
Qed.

(** C3. On a new instance, for every list of alert records the array
    returns (an absent or empty list included), the Alert Counter's probe
    returns exactly three metrics, in the order critical, warning, info,
    each with min 0 and no max, whose values are the numbers of records
    whose [current_severity] is "critical", "warning" and "info"; with no
    record the three values are 0; and with no threshold configured the
    overall verdict is OK. *)
Theorem C3_alert_counts :
  forall fa ep tok fainfo,
    connect fa ep tok = Ok tt ->
    list_messages fa = Ok fainfo ->
    invalidate_cookie fa = Ok tt ->
    Forall (fun a => is_Some (a !! "current_severity")) (records fainfo) ->
    outcome (probe fa (__init__ ep tok)) =
      Ok [mkMetric "critical" (Int (count "critical" (records fainfo)))
                   None (Some 0) None None;
          mkMetric "warning" (Int (count "warning" (records fainfo)))
                   None (Some 0) None None;
          mkMetric "info" (Int (count "info" (records fainfo)))
                   None (Some 0) None None]
    /\ (falsy fainfo = true ->
        outcome (probe fa (__init__ ep tok)) =
          Ok [mkMetric "critical" (Int 0) None (Some 0) None None;
              mkMetric "warning" (Int 0) None (Some 0) None None;
              mkMetric "info" (Int 0) None (Some 0) None None])
    /\ main (parse_args ep tok None None None None None None) fa = OK.
Proof.
  intros fa ep tok fainfo H1 H2 H3 HF.
  pose proof (probe_run fa (__init__ ep tok) fainfo H1 H2 H3 HF) as Hp.
  cbv zeta in Hp.
  assert (outcome (probe fa (__init__ ep tok)) =
          Ok (metrics (count "critical" (records fainfo))
                      (count "warning" (records fainfo))
                      (count "info" (records fainfo)))) as Ho.
  { rewrite Hp. unfold outcome. cbn [fst].
    destruct (falsy fainfo) eqn:Hf; [|done].
    assert (records fainfo = []) as -> by (by destruct fainfo as [[|]|]).
    by rewrite !count_nil. }
  split; [exact Ho|]. split.
  - intros Hf. rewrite Hp. unfold outcome. cbn [fst]. by rewrite Hf.
  - unfold main, parse_args. cbn [args_endpoint args_apitoken].
    by rewrite Ho.
Qed.

(** The sample of the specification: two critical alerts and one warning. *)
Lemma C3_alert_counts_witness :
  outcome
    (probe (Samples.reachable
              (Some [Samples.alert "critical"; Samples.alert "critical";
                     Samples.alert "warning"]) ∅)
           (__init__ "array" "token")) =
    Ok [mkMetric "critical" (Int 2) None (Some 0) None None;
        mkMetric "warning" (Int 1) None (Some 0) None None;
        mkMetric "info" (Int 0) None (Some 0) None None].
Proof.
  refine (proj1 (C3_alert_counts
            (Samples.reachable
               (Some [Samples.alert "critical"; Samples.alert "critical";
                      Samples.alert "warning"]) ∅)
            "array" "token"
            (Some [Samples.alert "critical"; Samples.alert "critical";
                   Samples.alert "warning"]) _ _ _ _)).
  - reflexivity.
  - reflexivity.
  - reflexivity.
  - repeat constructor; by eexists.
Defined.

(** With the critical range "0:1" on the critical count, the same sample
    is CRITICAL. *)
Example alert_sample_critical :
  main (parse_args "array" "token" None (Some "0:1") None None None None)
       (Samples.reachable
          (Some [Samples.alert "critical"; Samples.alert "critical";
                 Samples.alert "warning"]) ∅) = CRITICAL.
Proof. by vm_compute. Qed.

(** C10. The severity counters of a [PureFAalert] are instance state: zero
    at construction, advanced by every call of [probe], never reset.  For a
    fixed non-empty record set, call number [n] of [probe] on one instance
    returns metrics whose values are [n] times the per-severity counts;
    only the first call returns the counts themselves. *)
Theorem C10_counters_accumulate :
  forall fa ep tok l n,
    connect fa ep tok = Ok tt ->
    list_messages fa = Ok (Some l) ->
    invalidate_cookie fa = Ok tt ->
    l <> [] ->
    Forall (fun a => is_Some (a !! "current_severity")) l ->
    (1 <= n)%nat ->
    (crit (__init__ ep tok) = 0 /\ warn (__init__ ep tok) = 0
     /\ info (__init__ ep tok) = 0)
    /\ (crit (after fa n (__init__ ep tok)) = Z.of_nat n * count "critical" l
        /\ warn (after fa n (__init__ ep tok)) = Z.of_nat n * count "warning" l
        /\ info (after fa n (__init__ ep tok)) = Z.of_nat n * count "info" l)
    /\ nth_call fa n (__init__ ep tok) =
         Ok (metrics (Z.of_nat n * count "critical" l)
                     (Z.of_nat n * count "warning" l)
                     (Z.of_nat n * count "info" l))
    /\ nth_call fa 1 (__init__ ep tok) =
         Ok (metrics (count "critical" l) (count "warning" l)
                     (count "info" l))
    /\ (Forall well_formed l -> (2 <= n)%nat ->
        nth_call fa n (__init__ ep tok) <> nth_call fa 1 (__init__ ep tok)).
Proof.
  intros fa ep tok l n H1 H2 H3 Hne HF Hn.
  assert (forall k, (1 <= k)%nat ->
            nth_call fa k (__init__ ep tok) =
              Ok (metrics (Z.of_nat k * count "critical" l)
                          (Z.of_nat k * count "warning" l)
                          (Z.of_nat k * count "info" l))) as Hcall.
  { intros k Hk. unfold nth_call.
    rewrite (after_run fa ep tok (Some l) _ H1 H2 H3 HF).
    rewrite (probe_run fa _ (Some l)); [|done..].
    unfold outcome. cbn [fst records falsy].
    destruct l as [|a l]; [done|].
    unfold add_counts, __init__. cbn [crit warn info].
    replace (Z.of_nat (Nat.pred k)) with (Z.of_nat k - 1) by lia.
    do 2 f_equal; lia. }
  split; [done|]. split.
  { rewrite (after_run fa ep tok (Some l) _ H1 H2 H3 HF).
    unfold add_counts, __init__. cbn [crit warn info records]. lia. }
  split; [by apply Hcall|]. split.
  { rewrite (Hcall 1%nat) by lia. do 2 f_equal; lia. }
  intros Hwf H2n. rewrite (Hcall n Hn), (Hcall 1%nat) by lia.
  pose proof (count_total l Hwf) as Ht.
  pose proof (count_nonneg "critical" l).
  pose proof (count_nonneg "warning" l).
  pose proof (count_nonneg "info" l).
  assert (0 < Z.of_nat (length l)) by (destruct l; [done|cbn [length]; lia]).
  unfold metrics. intros [= Ec Ew Ei]. nia.
Qed.

Lemma C10_counters_accumulate_witness :
  nth_call
    (Samples.reachable
       (Some [Samples.alert "critical"; Samples.alert "critical";
              Samples.alert "warning"]) ∅)
    3 (__init__ "array" "token") =
    Ok (metrics
          (3 * count "critical"
                 [Samples.alert "critical"; Samples.alert "critical";
                  Samples.alert "warning"])
          (3 * count "warning"
                 [Samples.alert "critical"; Samples.alert "critical";
                  Samples.alert "warning"])
          (3 * count "info"
                 [Samples.alert "critical"; Samples.alert "critical";
                  Samples.alert "warning"]))
  /\ metrics
       (3 * count "critical"
              [Samples.alert "critical"; Samples.alert "critical";
               Samples.alert "warning"])
       (3 * count "warning"
              [Samples.alert "critical"; Samples.alert "critical";
               Samples.alert "warning"])
       (3 * count "info"
              [Samples.alert "critical"; Samples.alert "critical";
               Samples.alert "warning"])
     = metrics 6 3 0.
Proof.
  split; [|reflexivity].
  refine (proj1 (proj2 (proj2 (C10_counters_accumulate
            (Samples.reachable
               (Some [Samples.alert "critical"; Samples.alert "critical";
                      Samples.alert "warning"]) ∅)
            "array" "token"
            [Samples.alert "critical"; Samples.alert "critical";
             Samples.alert "warning"] 3 _ _ _ _ _ _)))).
  - reflexivity.
  - reflexivity.
  - reflexivity.
  - discriminate.
  - repeat constructor; by eexists.
  - lia.
Defined.

End AlertFacts.

(** ** The Verdict Aggregator *)

Module AggregateFacts.
Import nagiosplugin.

Lemma rank_inj a b : rank a = rank b -> a = b.
Proof. by destruct a, b. Qed.

Lemma rank_worse a b : rank (worse a b) = Z.max (rank a) (rank b).
Proof. unfold worse. destruct (Z.ltb_spec (rank a) (rank b)); lia. Qed.

Lemma worse_cases a b : worse a b = a \/ worse a b = b.
Proof. unfold worse. destruct (rank a <? rank b); auto. Qed.

(** Folding [worse] from [v] over [l] picks an element of [v :: l] ... *)
Lemma fold_worse_in l v : In (fold_left worse l v) (v :: l).
Proof.
  revert v. induction l as [|x l IH]; intros v; simpl.
  - by left.
  - destruct (IH (worse v x)) as [H|H]; [|by right; right].
    rewrite <- H. destruct (worse_cases v x) as [E|E]; rewrite E; auto.
Qed.

(** ... whose rank is the largest. *)
Lemma fold_worse_rank l v :
  rank (fold_left worse l v)
  = fold_left Z.max (List.map rank l) (rank v).
Proof.
  revert v. induction l as [|x l IH]; intros v; simpl; [done|].
  by rewrite IH, rank_worse.
Qed.

Lemma fold_max_ge l z : z <= fold_left Z.max l z.
Proof.
  revert z. induction l as [|x l IH]; intros z; simpl; [lia|].
  specialize (IH (Z.max z x)). lia.
Qed.

Lemma fold_max_upper l z x : In x l -> x <= fold_left Z.max l z.
Proof.
  revert z. induction l as [|y l IH]; intros z; simpl; [done|].
  intros [->|H]; [|by apply IH].
  pose proof (fold_max_ge l (Z.max z x)). lia.
Qed.

Lemma aggregate_in vs : vs <> [] -> In (aggregate vs) vs.
Proof. destruct vs as [|v vs]; [done|]. intros _. apply fold_worse_in. Qed.

Lemma aggregate_upper vs v : In v vs -> rank v <= rank (aggregate vs).
Proof.
  destruct vs as [|x vs]; [done|]. unfold aggregate.
  rewrite fold_worse_rank. intros [->|H].
  - apply fold_max_ge.
  - apply fold_max_upper. by apply in_map.
Qed.

Lemma rank_bounds v : 0 <= rank v <= 3.
Proof. destruct v; simpl; lia. Qed.

Lemma aggregate_unknown vs : In UNKNOWN vs -> aggregate vs = UNKNOWN.
Proof.
  intros H. apply rank_inj.
  pose proof (aggregate_upper vs UNKNOWN H).
  pose proof (rank_bounds (aggregate vs)). simpl in *. lia.
Qed.

Lemma aggregate_perm vs vs' :
  Permutation vs vs' -> aggregate vs = aggregate vs'.
Proof.
  intros HP. destruct vs as [|v vs].
  - by rewrite (Permutation_nil HP).
  - assert (vs' <> []) as Hne.
    { intros ->. symmetry in HP. by apply Permutation_nil in HP. }
    apply rank_inj.
    pose proof (aggregate_in (v :: vs) ltac:(done)) as H1.
    pose proof (aggregate_in vs' Hne) as H2.
    apply (Permutation_in _ HP) in H1.
    apply (Permutation_in _ (Permutation_sym HP)) in H2.
    apply aggregate_upper in H1, H2. lia.
Qed.

End AggregateFacts.

(** ** The Range Parser *)

Module RangeFacts.
Import nagiosplugin.

(** *** Splitting *)

Lemma split_at_app c a b :
  split_at c a = None -> split_at c (a +:+ String c b) = Some (a, b).
Proof.
  induction a as [|d a IH]; simpl.
  - by rewrite Ascii.eqb_refl.
  - destruct (Ascii.eqb d c); [done|].
    destruct (split_at c a) as [[x y]|]; [done|].
    intros _. by rewrite IH.
Qed.

Lemma split_at_Some c s a b :
  split_at c s = Some (a, b) ->
  s = a +:+ String c b /\ split_at c a = None.
Proof.
  revert a. induction s as [|d s IH]; intros a; simpl; [done|].
  destruct (Ascii.eqb_spec d c) as [->|Hd].
  - by intros [= <- <-].
  - destruct (split_at c s) as [[x y]|]; [|done].
    intros [= <- <-]. destruct (IH x eq_refl) as [-> Hx]. split; [done|].
    simpl. destruct (Ascii.eqb_spec d c); [done|]. by rewrite Hx.
Qed.

Lemma split_at_None_app c a b :
  split_at c a = None -> split_at c b = None -> split_at c (a +:+ b) = None.
Proof.
  intros Ha Hb. induction a as [|d a IH]; simpl in *; [done|].
  destruct (Ascii.eqb d c); [done|].
  destruct (split_at c a) as [[x y]|]; [done|]. by rewrite IH.
Qed.

Lemma split_at_None_cons c d s :
  d <> c -> split_at c s = None -> split_at c (String d s) = None.
Proof.
  intros Hd Hs. simpl. destruct (Ascii.eqb_spec d c); [done|]. by rewrite Hs.
Qed.

(** *** Numerals hold digits, a sign and a point, nothing else *)

Lemma digits_free c s acc n :
  digit c = None -> digits s acc = Some n -> split_at c s = None.
Proof.
  intros Hc. revert acc. induction s as [|d s IH]; intros acc; simpl; [done|].
  destruct (digit d) as [k|] eqn:Hd; [|done].
  intros H. destruct (Ascii.eqb_spec d c) as [->|_]; [congruence|].
  by rewrite (IH _ H).
Qed.

Lemma natural_free c s n :
  digit c = None -> natural s = Some n -> split_at c s = None.
Proof.
  intros Hc. destruct s as [|d s]; [done|]. apply digits_free, Hc.
Qed.

Lemma unsigned_free c s q :
  digit c = None -> c <> "."%char -> unsigned s = Some q ->
  split_at c s = None.
Proof.
  intros Hc Hdot. unfold unsigned.
  destruct (split_at "." s) as [[i f]|] eqn:Hs.
  - destruct (natural i) as [a|] eqn:Hi; [|done].
    destruct (natural f) as [b|] eqn:Hf; [|done]. intros _.
    apply split_at_Some in Hs as [-> _].
    apply split_at_None_app; [by eapply natural_free|].
    apply split_at_None_cons; [done|]. by eapply natural_free.
  - destruct (natural s) as [a|] eqn:Hn; [|done]. intros _.
    by eapply natural_free.
Qed.

Lemma parse_number_cons c s :
  c <> "-"%char -> parse_number (String c s) = unsigned (String c s).
Proof.
  intros Hc. destruct c as [[] [] [] [] [] [] [] []]; try reflexivity.
  by destruct Hc.
Qed.

Lemma number_free c s q :
  digit c = None -> c <> "."%char -> c <> "-"%char ->
  parse_number s = Some q -> split_at c s = None.
Proof.
  intros Hc Hdot Hminus. destruct s as [|d s]; [done|].
  destruct (Ascii.eqb_spec d "-") as [->|Hd].
  - intros H. cbn [parse_number] in H.
    destruct (unsigned s) as [u|] eqn:Hu; [|done].
    apply split_at_None_cons; [congruence|]. by eapply unsigned_free.
  - rewrite parse_number_cons by done. by apply unsigned_free.
Qed.

Lemma number_not_at s q : parse_number (String "@" s) <> Some q.
Proof.
  intros H. apply (number_free "@") in H; [|done..].
  cbn [split_at] in H. by rewrite Ascii.eqb_refl in H.
Qed.

(** *** The two sides of an interval *)

Lemma parse_start_number mn s a :
  parse_number s = Some a -> Qle_bool 0 a = true ->
  parse_start mn s = Some (Some a).
Proof.
  intros Hs Ha. unfold parse_start.
  destruct (String.eqb_spec s "") as [->|_]; [done|].
  destruct (String.eqb_spec s "~") as [->|_]; [done|].
  by rewrite Hs, Ha.
Qed.

Lemma parse_end_number mx e b :
  parse_number e = Some b -> parse_end mx e = Some (Some b).
Proof.
  intros He. unfold parse_end.
  destruct (String.eqb_spec e "") as [->|_]; [done|].
  destruct (String.eqb_spec e "~") as [->|_]; [done|].
  by rewrite He.
Qed.

(** *** Expressions without the leading "@" *)

Lemma parse_plain mn mx c s :
  c <> "@"%char ->
  parse mn mx (String c s) =
    match parse_interval mn mx (String c s) with
    | Some (lo, hi) => Some (Interval false lo hi)
    | None => None
    end.
Proof.
  intros Hc. destruct c as [[] [] [] [] [] [] [] []]; try reflexivity.
  by destruct Hc.
Qed.

Lemma parse_number_head mn mx s q rest :
  parse_number s = Some q ->
  parse mn mx (s +:+ rest) =
    match parse_interval mn mx (s +:+ rest) with
    | Some (lo, hi) => Some (Interval false lo hi)
    | None => None
    end.
Proof.
  intros Hs. destruct s as [|c s]; [done|].
  change (String c s +:+ rest) with (String c (s +:+ rest)).
  apply parse_plain. intros ->.
  by apply number_not_at in Hs.
Qed.

Lemma number_no_colon s q : parse_number s = Some q -> split_at ":" s = None.
Proof. by apply number_free. Qed.

(** *** What each form of the grammar parses to *)

Lemma parse_start_end mn mx s e a b :
  parse_number s = Some a -> parse_number e = Some b ->
  Qle_bool 0 a = true -> Qle_bool a b = true ->
  parse mn mx (s +:+ ":" +:+ e) = Some (Interval false (Some a) (Some b)).
Proof.
  intros Hs He Ha Hab. rewrite (parse_number_head mn mx s a _ Hs).
  unfold parse_interval. change (":" +:+ e) with (String ":" e).
  rewrite (split_at_app _ _ _ (number_no_colon s a Hs)).
  rewrite (parse_start_number mn s a Hs Ha), (parse_end_number mx e b He).
  cbn [bounds_ordered]. by rewrite Hab.
Qed.

Lemma parse_no_start mn mx e b :
  parse_number e = Some b ->
  bounds_ordered (option_map inject_Z mn) (Some b) = true ->
  parse mn mx (":" +:+ e)
  = Some (Interval false (option_map inject_Z mn) (Some b)).
Proof.
  intros He Hb. change (":" +:+ e) with (String ":" e).
  rewrite parse_plain by done. unfold parse_interval.
  cbn [split_at]. rewrite Ascii.eqb_refl.
  change (parse_start mn "") with (Some (option_map inject_Z mn)).
  by rewrite (parse_end_number mx e b He), Hb.
Qed.

Lemma parse_no_end mn mx s a :
  parse_number s = Some a -> Qle_bool 0 a = true ->
  bounds_ordered (Some a) (option_map inject_Z mx) = true ->
  parse mn mx (s +:+ ":")
  = Some (Interval false (Some a) (option_map inject_Z mx)).
Proof.
  intros Hs Ha Hb. rewrite (parse_number_head mn mx s a _ Hs).
  unfold parse_interval.
  rewrite (split_at_app _ _ _ (number_no_colon s a Hs)).
  rewrite (parse_start_number mn s a Hs Ha).
  change (parse_end mx "") with (Some (option_map inject_Z mx)).
  cbv iota beta. by rewrite Hb.
Qed.

Lemma parse_tilde_start mn mx e b :
  parse_number e = Some b ->
  parse mn mx ("~:" +:+ e) = Some (Interval false None (Some b)).
Proof.
  intros He. change ("~:" +:+ e) with (String "~" (String ":" e)).
  rewrite parse_plain by done. unfold parse_interval.
  change (split_at ":" (String "~" (String ":" e))) with (Some ("~", e)).
  cbv beta iota. change (parse_start mn "~") with (Some (@None Q)).
  by rewrite (parse_end_number mx e b He).
Qed.

Lemma parse_tilde_end mn mx s a :
  parse_number s = Some a -> Qle_bool 0 a = true ->
  parse mn mx (s +:+ ":~") = Some (Interval false (Some a) None).
Proof.
  intros Hs Ha. rewrite (parse_number_head mn mx s a _ Hs).
  unfold parse_interval.
  rewrite (split_at_app _ _ _ (number_no_colon s a Hs)).
  rewrite (parse_start_number mn s a Hs Ha).
  by change (parse_end mx "~") with (Some (@None Q)).
Qed.

Lemma append_empty_r s : s +:+ "" = s.
Proof.
  induction s as [|c s IH]; [done|].
  change (String c s +:+ "") with (String c (s +:+ "")). by f_equal.
Qed.

Lemma parse_single mn mx n q :
  parse_number n = Some q ->
  parse mn mx n =
    if Qle_bool 0 q then Some (Interval false (Some 0%Q) (Some q)) else None.
Proof.
  intros Hn. rewrite <- (append_empty_r n) at 1.
  rewrite (parse_number_head mn mx n q _ Hn), append_empty_r.
  unfold parse_interval.
  rewrite (number_no_colon n q Hn), Hn. cbn [bounds_ordered].
  by destruct (Qle_bool 0 q).
Qed.

Lemma parse_zero_to mn mx n q :
  parse_number n = Some q ->
  parse mn mx ("0:" +:+ n) =
    if Qle_bool 0 q then Some (Interval false (Some 0%Q) (Some q)) else None.
Proof.
  intros Hn. change ("0:" +:+ n) with ("0" +:+ ":" +:+ n).
  rewrite (parse_number_head mn mx "0" 0%Q _ eq_refl). unfold parse_interval.
  change (":" +:+ n) with (String ":" n).
  rewrite (split_at_app ":" "0" n eq_refl).
  change (parse_start mn "0") with (Some (Some 0%Q)).
  rewrite (parse_end_number mx n q Hn). cbn [bounds_ordered].
  by destruct (Qle_bool 0 q).
Qed.

Lemma parse_inverted mn mx r lo hi :
  parse mn mx r = Some (Interval false lo hi) ->
  parse mn mx ("@" +:+ r) = Some (Interval true lo hi).
Proof.
  change ("@" +:+ r) with (String "@" r). cbn [parse].
  destruct r as [|c r]; [done|].
  destruct (Ascii.eqb_spec c "@") as [->|Hc].
  - cbn [parse]. by destruct (parse_interval mn mx r) as [[??]|].
  - rewrite parse_plain by done.
    destruct (parse_interval mn mx (String c r)) as [[??]|]; [|done].
    by intros [= -> ->].
Qed.

(** *** What an interval accepts *)

Lemma accepts_interval a b q :
  accepts (Interval false (Some a) (Some b)) (Fin q) = true
  <-> (a <= q /\ q <= b)%Q.
Proof.
  cbn. rewrite andb_true_iff, !Qle_bool_iff. done.
Qed.

Lemma accepts_inverted lo hi v :
  accepts (Interval true lo hi) v = negb (accepts (Interval false lo hi) v).
Proof. cbn. by destruct (start_le lo v && le_end v hi). Qed.

Lemma accepts_below b q :
  accepts (Interval false None (Some b)) (Fin q) = true <-> (q <= b)%Q.
Proof. cbn. by rewrite Qle_bool_iff. Qed.

Lemma accepts_above a q :
  accepts (Interval false (Some a) None) (Fin q) = true <-> (a <= q)%Q.
Proof. cbn. by rewrite andb_true_r, Qle_bool_iff. Qed.

(** C2. The Range Parser and the acceptance test follow the range grammar
    of monitoring plugins.  The empty string accepts every value.
    "start:end" accepts v iff start <= v <= end.  An omitted start is the
    metric's declared min, or negative infinity; an omitted end is its
    declared max, or positive infinity.  A single number N means "0:N".  A
    leading "@" inverts the acceptance.  "~" is an explicit infinity.
    "10:20" accepts 15 and rejects 5 and 25, "@10:20" accepts 5 and 25 and
    rejects 15, "~:5" accepts every value <= 5.  Parsing is a function of
    the expression and the declared bounds. *)
Theorem C2_range_grammar :
  forall mn mx : option Z,
    (exists r, parse mn mx "" = Some r /\ forall v, accepts r v = true)
    /\ (forall s e a b,
          parse_number s = Some a -> parse_number e = Some b ->
          (0 <= a)%Q -> (a <= b)%Q ->
          exists r,
            parse mn mx (s +:+ ":" +:+ e) = Some r
            /\ forall q, accepts r (Fin q) = true <-> (a <= q /\ q <= b)%Q)
    /\ (forall e b,
          parse_number e = Some b ->
          bounds_ordered (option_map inject_Z mn) (Some b) = true ->
          exists r,
            parse mn mx (":" +:+ e) = Some r
            /\ forall q,
                accepts r (Fin q) = true
                <-> (match mn with
                     | Some lo => (inject_Z lo <= q)%Q
                     | None => True
                     end /\ (q <= b)%Q))
    /\ (forall s a,
          parse_number s = Some a -> (0 <= a)%Q ->
          bounds_ordered (Some a) (option_map inject_Z mx) = true ->
          exists r,
            parse mn mx (s +:+ ":") = Some r
            /\ forall q,
                accepts r (Fin q) = true
                <-> ((a <= q)%Q
                     /\ match mx with
                        | Some hi => (q <= inject_Z hi)%Q
                        | None => True
                        end))
    /\ (forall n q,
          parse_number n = Some q ->
          parse mn mx n = parse mn mx ("0:" +:+ n))
    /\ (forall r lo hi,
          parse mn mx r = Some (Interval false lo hi) ->
          exists r',
            parse mn mx ("@" +:+ r) = Some r'
            /\ forall v,
                accepts r' v = negb (accepts (Interval false lo hi) v))
    /\ (forall e b,
          parse_number e = Some b ->
          exists r,
            parse mn mx ("~:" +:+ e) = Some r
            /\ forall q, accepts r (Fin q) = true <-> (q <= b)%Q)
    /\ (forall s a,
          parse_number s = Some a -> (0 <= a)%Q ->
          exists r,
            parse mn mx (s +:+ ":~") = Some r
            /\ forall q, accepts r (Fin q) = true <-> (a <= q)%Q)
    /\ (exists r,
          parse mn mx "10:20" = Some r
          /\ accepts r (xval_of (Py.Int 15)) = true
          /\ accepts r (xval_of (Py.Int 5)) = false
          /\ accepts r (xval_of (Py.Int 25)) = false)
    /\ (exists r,
          parse mn mx "@10:20" = Some r
          /\ accepts r (xval_of (Py.Int 15)) = false
          /\ accepts r (xval_of (Py.Int 5)) = true
          /\ accepts r (xval_of (Py.Int 25)) = true)
    /\ (exists r,
          parse mn mx "~:5" = Some r
          /\ forall q, accepts r (Fin q) = true <-> (q <= 5)%Q)
    /\ (forall s r1 r2,
          parse mn mx s = Some r1 -> parse mn mx s = Some r2 -> r1 = r2).
Proof.
  intros mn mx.
  split. { exists NoThreshold. by split. }
  split.
  { intros s e a b Hs He Ha Hab. apply Qle_bool_iff in Ha, Hab.
    eexists. split; [by apply parse_start_end|]. apply accepts_interval. }
  split.
  { intros e b He Hb. eexists. split; [by apply parse_no_start|].
    intros q. destruct mn as [lo|]; cbn.
    - by rewrite andb_true_iff, !Qle_bool_iff.
    - rewrite Qle_bool_iff. tauto. }
  split.
  { intros s a Hs Ha Hb. apply Qle_bool_iff in Ha.
    eexists. split; [by apply parse_no_end|].
    intros q. destruct mx as [hi|]; cbn.
    - by rewrite andb_true_iff, !Qle_bool_iff.
    - rewrite andb_true_r, Qle_bool_iff. tauto. }
  split.
  { intros n q Hn.
    by rewrite (parse_single mn mx n q Hn), (parse_zero_to mn mx n q Hn). }
  split.
  { intros r lo hi Hr. eexists. split; [by apply parse_inverted|].
    apply accepts_inverted. }
  split.
  { intros e b He. eexists. split; [by apply parse_tilde_start|].
    apply accepts_below. }
  split.
  { intros s a Hs Ha. apply Qle_bool_iff in Ha.
    eexists. split; [by apply parse_tilde_end|]. apply accepts_above. }
  split. { eexists. split; [reflexivity|]. by repeat split. }
  split. { eexists. split; [reflexivity|]. by repeat split. }
  split.
  { eexists. split; [by apply (parse_tilde_start mn mx "5" 5%Q)|].
    apply accepts_below. }
  intros s r1 r2 H1 H2. congruence.
Qed.

Lemma C2_range_grammar_witness :
  (exists r,
      parse (Some 0) (Some 100) ("10.5" +:+ ":" +:+ "20") = Some r
      /\ (accepts r (Fin 15%Q) = true <-> (10.5 <= 15 /\ 15 <= 20)%Q))
  /\ (exists r,
        parse (Some 0) (Some 100) (":" +:+ "80") = Some r
        /\ (accepts r (Fin (-1)%Q) = true
            <-> (inject_Z 0 <= -1 /\ -1 <= 80)%Q))
  /\ parse (Some 0) (Some 100) "95" = parse (Some 0) (Some 100) "0:95"
  /\ (exists r',
        parse (Some 0) (Some 100) ("@" +:+ "10:20") = Some r'
        /\ accepts r' (Fin 15%Q)
           = negb (accepts (Interval false (Some 10%Q) (Some 20%Q))
                           (Fin 15%Q))).
Proof.
  destruct (C2_range_grammar (Some 0) (Some 100))
    as (_ & Hse & Hs & _ & Hn & Hat & _).
  split; [|split; [|split]].
  - destruct (Hse "10.5" "20" 10.5%Q 20%Q) as (r & Hr & Hq);
      [reflexivity | reflexivity | by vm_compute | by vm_compute |].
    exists r. split; [exact Hr | apply Hq].
  - destruct (Hs "80" 80%Q) as (r & Hr & Hq); [reflexivity | reflexivity |].
    exists r. split; [exact Hr | apply Hq].
  - apply (Hn "95" 95%Q). reflexivity.
  - destruct (Hat "10:20" (Some 10%Q) (Some 20%Q)) as (r' & Hr & Hv);
      [reflexivity|].
    exists r'. split; [exact Hr | apply Hv].
Defined.

End RangeFacts.

(** ** The Occupancy Sampler *)

Module OccupancyFacts.
Import Py purestorage Eff nagiosplugin check_purefa_occpy.

(** [get_space] never writes to the instance. *)
Lemma get_space_final fa self : final (get_space fa self) = self.
Proof.
  unfold get_space, try_except, bind, get_self, perform, lift, ret, raise,
    final.
  cbn. destruct (connect fa _ _) as [[]|e]; cbn; [|done].
  destruct (volname self) as [v|]; cbn.
  - destruct (get_volume fa v) as [r|e]; cbn; [|done].
    by destruct (invalidate_cookie fa) as [[]|e].
  - destruct (get fa) as [l|e]; cbn; [|done].
    destruct (first l) as [r|e]; cbn; [|done].
    by destruct (invalidate_cookie fa) as [[]|e].
Qed.

(** [probe] after a fetch that returned the record [fainfo]. *)
Lemma probe_fetched fa self fainfo :
  outcome (get_space fa self) = Ok fainfo ->
  outcome (probe fa self) =
    if falsy fainfo then Ok EmptyStr
    else
      match volname self with
      | None =>
          match float_ (fainfo !! "total") with
          | Ok total =>
              match float_ (fainfo !! "capacity") with
              | Ok capacity =>
                  match truediv total capacity with
                  | Ok ratio =>
                      Ok (OneMetric
                            (mkMetric "FA occupancy"
                               (Float (mul_int (round ratio 2) 100))
                               (Some "%") (Some 0) (Some 100)
                               (Some "occupancy")))
                  | Raise e => Raise e
                  end
              | Raise e => Raise e
              end
          | Raise e => Raise e
          end
      | Some v =>
          if percentage self then
            match float_ (fainfo !! "total") with
            | Ok total =>
                match float_ (fainfo !! "size") with
                | Ok size =>
                    match truediv total size with
                    | Ok ratio =>
                        Ok (OneMetric
                              (mkMetric (v +:+ " occupancy")
                                 (Float (mul_int (round ratio 2) 100))
                                 (Some "%") (Some 0) (Some 100)
                                 (Some "occupancy")))
                    | Raise e => Raise e
                    end
                | Raise e => Raise e
                end
            | Raise e => Raise e
            end
          else
            match int_ (fainfo !! "volumes") with
            | Ok occupancy =>
                Ok (OneMetric
                      (mkMetric (v +:+ " occupancy") (Int occupancy)
                         (Some "B") (Some 0) None (Some "occupancy")))
            | Raise e => Raise e
            end
      end.
Proof.
  intros H. unfold probe, bind.
  rewrite (run_eta (get_space fa self)), H, get_space_final.
  destruct (falsy fainfo); [done|].
  unfold get_self, lift, ret. cbn.
  destruct (volname self) as [v|]; [destruct (percentage self)|].
  - destruct (float_ (fainfo !! "total")); [|done].
    destruct (float_ (fainfo !! "size")); [|done].
    by destruct (truediv _ _).
  - by destruct (int_ (fainfo !! "volumes")).
  - destruct (float_ (fainfo !! "total")); [|done].
    destruct (float_ (fainfo !! "capacity")); [|done].
    by destruct (truediv _ _).
Qed.

(** A failed fetch is the outcome of [probe]. *)
Lemma probe_not_fetched fa self e :
  outcome (get_space fa self) = Raise e ->
  outcome (probe fa self) = Raise e.
Proof.
  intros H. unfold probe, bind.
  by rewrite (run_eta (get_space fa self)), H.
Qed.

Lemma falsy_empty (fainfo : gmap string Z) : falsy fainfo = true <-> fainfo = ∅.
Proof. unfold falsy. apply bool_decide_eq_true. Qed.

Lemma truediv_nonzero a b : is_zero b = false -> truediv a b = Ok (a / b)%float.
Proof. unfold truediv. by intros ->. Qed.

(** The calls of [probe] are those of [get_space]. *)
Lemma probe_trace fa self : trace (probe fa self) = trace (get_space fa self).
Proof.
  unfold probe, bind.
  rewrite (run_eta (get_space fa self)) at 1.
  rewrite get_space_final.
  destruct (outcome (get_space fa self)) as [fainfo|e]; [|done].
  destruct (falsy fainfo); [cbn; by rewrite app_nil_r|].
  unfold get_self, lift, ret. cbn.
  destruct (volname self) as [v|]; [destruct (percentage self)|].
  - destruct (float_ (fainfo !! "total")); [|cbn; by rewrite app_nil_r].
    destruct (float_ (fainfo !! "size")); [|cbn; by rewrite app_nil_r].
    destruct (truediv _ _); cbn; by rewrite app_nil_r.
  - destruct (int_ (fainfo !! "volumes")); cbn; by rewrite app_nil_r.
  - destruct (float_ (fainfo !! "total")); [|cbn; by rewrite app_nil_r].
    destruct (float_ (fainfo !! "capacity")); [|cbn; by rewrite app_nil_r].
    destruct (truediv _ _); cbn; by rewrite app_nil_r.
Qed.

(** [probe] never writes to the instance. *)
Lemma probe_final fa self : final (probe fa self) = self.
Proof.
  unfold probe, bind.
  rewrite (run_eta (get_space fa self)) at 1.
  rewrite get_space_final.
  destruct (outcome (get_space fa self)) as [fainfo|e]; [|done].
  destruct (falsy fainfo); [done|].
  unfold get_self, lift, ret. cbn.
  destruct (volname self) as [v|]; [destruct (percentage self)|].
  - destruct (float_ (fainfo !! "total")); [|done].
    destruct (float_ (fainfo !! "size")); [|done].
    by destruct (truediv _ _).
  - by destruct (int_ (fainfo !! "volumes")).
  - destruct (float_ (fainfo !! "total")); [|done].
    destruct (float_ (fainfo !! "capacity")); [|done].
    by destruct (truediv _ _).
Qed.

(** The fetch does not look at the percentage flag. *)
Lemma get_space_flag fa ep tok v p p' :
  outcome (get_space fa (__init__ ep tok v p))
  = outcome (get_space fa (__init__ ep tok v p'))
  /\ trace (get_space fa (__init__ ep tok v p))
     = trace (get_space fa (__init__ ep tok v p')).
Proof.
  unfold get_space, try_except, bind, get_self, perform, lift, ret, raise,
    outcome, trace.
  cbn. destruct (connect fa ep tok) as [[]|e]; cbn; [|done].
  destruct v as [v|]; cbn.
  - destruct (get_volume fa v) as [r|e]; cbn; [|done].
    by destruct (invalidate_cookie fa) as [[]|e].
  - destruct (get fa) as [l|e]; cbn; [|done].
    destruct (first l) as [r|e]; cbn; [|done].
    by destruct (invalidate_cookie fa) as [[]|e].
Qed.

(** C9. In whole-array mode (no volume name) the percentage flag has no
    effect: two runs of the Occupancy Sampler that differ only in the flag
    return the same result (the same metric, with the same name, value,
    unit and bounds, or the same failure), make the same calls on the array
    and give the same overall verdict. *)
Theorem C9_percentage_ignored_without_volume :
  forall fa ep tok p p',
    outcome (probe fa (__init__ ep tok None p))
    = outcome (probe fa (__init__ ep tok None p'))
    /\ trace (probe fa (__init__ ep tok None p))
       = trace (probe fa (__init__ ep tok None p'))
    /\ (forall w c,
          main (parse_args ep tok None w c p) fa
          = main (parse_args ep tok None w c p') fa).
Proof.
  intros fa ep tok p p'.
  destruct (get_space_flag fa ep tok None p p') as [Ho Ht].
  assert (outcome (probe fa (__init__ ep tok None p))
          = outcome (probe fa (__init__ ep tok None p'))) as Hp.
  { destruct (outcome (get_space fa (__init__ ep tok None p)))
      as [fainfo|e] eqn:E.
    - rewrite (probe_fetched _ _ fainfo E).
      symmetry in Ho. by rewrite (probe_fetched _ _ fainfo Ho).
    - rewrite (probe_not_fetched _ _ e E).
      symmetry in Ho. by rewrite (probe_not_fetched _ _ e Ho). }
  split; [done|]. split.
  - by rewrite !probe_trace.
  - intros w c. unfold main, probed, parse_args.
    cbn [args_endpoint args_apitoken vol args_percentage args_warning
         args_critical]. by rewrite Hp.
Qed.

(** [round_half_even] gives an integer nearest to the quotient. *)
Lemma round_half_even_nearest num den :
  0 <= num -> 0 < den ->
  0 <= round_half_even num den
  /\ Z.abs (2 * num - 2 * round_half_even num den * den) <= den.
Proof.
  intros Hn Hd. unfold round_half_even.
  pose proof (Z.div_mod num den ltac:(lia)) as Hdm.
  pose proof (Z.mod_pos_bound num den Hd) as Hr.
  pose proof (Z.div_pos num den Hn Hd) as Hq.
  destruct (Z.compare_spec (2 * (num mod den)) den) as [He|Hl|Hg];
    [destruct (Z.even (num / den))| |]; split; nia.
Qed.

(** [round(x, 2)] is [x] rounded to two decimal places. *)
Lemma round_is_rounded x : rounded_to_2_decimals x (round x 2).
Proof.
  unfold rounded_to_2_decimals, round.
  destruct (Prim2SF x) as [s|s| |s m e]; try done.
  change (10 ^ 2) with 100.
  set (n := if 0 <=? e then Z.pos m * 2 ^ e * 100
            else round_half_even (Z.pos m * 100) (2 ^ (- e))).
  exists n. split; [|split].
  - subst n. destruct (Z.leb_spec 0 e) as [He|He].
    + pose proof (Z.pow_nonneg 2 e ltac:(lia)). nia.
    + apply round_half_even_nearest; [lia|]. apply Z.pow_pos_nonneg; lia.
  - unfold nearest_hundredths. subst n.
    destruct (Z.leb_spec 0 e) as [He|He]; [done|].
    apply round_half_even_nearest; [lia|]. apply Z.pow_pos_nonneg; lia.
  - unfold float_of_hundredths. by destruct n.
Qed.

(** C4. In array-wide mode, a non-falsy space record whose [total] and
    [capacity] convert to floats, [capacity] not zero, gives exactly one
    metric named "FA occupancy", unit %, min 0, max 100, whose value is
    [round(total / capacity, 2) * 100]: the ratio is rounded to two
    decimal places (to the double nearest to n/100, for an integer n
    nearest to 100 times the ratio), and the rounded ratio is then
    multiplied by 100.  The record {total: 50, capacity: 200} gives 25.0,
    and the verdict OK under the warning range "0:80" and the critical
    range "0:95"; {total: 1, capacity: 3} gives 33.0, where the ratio
    scaled without rounding is 33.33333333333333; {total: 1, capacity: 8}
    gives 12.0, the tie 0.125 going to the even 0.12; {total: 1,
    capacity: 7} gives 14.000000000000002. *)
Theorem C4_array_occupancy :
  (forall fa self fainfo total capacity,
      volname self = None ->
      outcome (get_space fa self) = Ok fainfo ->
      falsy fainfo = false ->
      float_ (fainfo !! "total") = Ok total ->
      float_ (fainfo !! "capacity") = Ok capacity ->
      is_zero capacity = false ->
      outcome (probe fa self) =
        Ok (OneMetric
              (mkMetric "FA occupancy"
                 (Float (mul_int (round (total / capacity) 2) 100))
                 (Some "%") (Some 0) (Some 100) (Some "occupancy")))
      /\ rounded_to_2_decimals (total / capacity)
                               (round (total / capacity) 2))
  /\ (forall ep tok p,
        outcome (probe (Samples.reachable None
                          {[ "total" := 50; "capacity" := 200 ]})
                       (__init__ ep tok None p)) =
          Ok (OneMetric
                (mkMetric "FA occupancy" (Float 25) (Some "%") (Some 0)
                          (Some 100) (Some "occupancy"))))
  /\ (forall ep tok p,
        main (parse_args ep tok None (Some "0:80") (Some "0:95") p)
             (Samples.reachable None {[ "total" := 50; "capacity" := 200 ]})
        = OK)
  /\ (forall ep tok p,
        outcome (probe (Samples.reachable None
                          {[ "total" := 1; "capacity" := 3 ]})
                       (__init__ ep tok None p)) =
          Ok (OneMetric
                (mkMetric "FA occupancy" (Float 33) (Some "%") (Some 0)
                          (Some 100) (Some "occupancy"))))
  /\ mul_int (1 / 3) 100 = 0x1.0aaaaaaaaaaaap+5%float
  /\ (forall ep tok p,
        outcome (probe (Samples.reachable None
                          {[ "total" := 1; "capacity" := 8 ]})
                       (__init__ ep tok None p)) =
          Ok (OneMetric
                (mkMetric "FA occupancy" (Float 12) (Some "%") (Some 0)
                          (Some 100) (Some "occupancy"))))
  /\ (forall ep tok p,
        outcome (probe (Samples.reachable None
                          {[ "total" := 1; "capacity" := 7 ]})
                       (__init__ ep tok None p)) =
          Ok (OneMetric
                (mkMetric "FA occupancy" (Float 0x1.c000000000001p+3)
                          (Some "%") (Some 0) (Some 100)
                          (Some "occupancy")))).
Proof.
  split; [|split; [|split; [|split; [|split; [|split]]]]].
  - intros fa self fainfo total capacity Hv Hf Hne Ht Hc Hz.
    split; [|apply round_is_rounded].
    rewrite (probe_fetched fa self fainfo Hf), Hne, Hv.
    by rewrite Ht, Hc, (truediv_nonzero _ _ Hz).
  - intros ep tok p. by vm_compute.
  - intros ep tok p. by vm_compute.
  - intros ep tok p. by vm_compute.
  - reflexivity.
  - intros ep tok p. by vm_compute.
  - intros ep tok p. by vm_compute.
Qed.

(** The ratio 1/3 is rounded to the double nearest 0.33 before the
    multiplication: the value is 33.0. *)
Lemma C4_array_occupancy_witness :
  (outcome (probe (Samples.reachable None {[ "total" := 1; "capacity" := 3 ]})
                  (__init__ "array" "token" None false)) =
     Ok (OneMetric
           (mkMetric "FA occupancy"
              (Float (mul_int (round (1 / 3) 2) 100))
              (Some "%") (Some 0) (Some 100) (Some "occupancy")))
   /\ rounded_to_2_decimals (1 / 3) (round (1 / 3) 2))
  /\ mul_int (round (1 / 3) 2) 100 = 33%float.
Proof.
  split; [|reflexivity].
  apply (proj1 C4_array_occupancy
           (Samples.reachable None {[ "total" := 1; "capacity" := 3 ]})
           (__init__ "array" "token" None false)
           {[ "total" := 1; "capacity" := 3 ]} 1%float 3%float).
  - reflexivity.
  - reflexivity.
  - reflexivity.
  - reflexivity.
  - reflexivity.
  - reflexivity.
Defined.

(** C6. In per-volume percentage mode, a non-falsy volume space record
    whose [total] and [size] convert to floats, [size] not zero, gives
    exactly one metric named "<volume> occupancy", unit %, min 0, max 100,
    whose value is [round(total / size, 2) * 100]: the ratio is rounded to
    two decimal places (to the double nearest to n/100, for an integer n
    nearest to 100 times the ratio) before the multiplication by 100.
    {total: 1, size: 3} gives 33.0, where the ratio scaled without
    rounding is 33.33333333333333; {total: 1, size: 8} gives 12.0;
    {total: 57, size: 100} gives 56.99999999999999, where rounding after
    the scaling would give 57.0. *)
Theorem C6_volume_percentage :
  (forall fa self v fainfo total size,
      volname self = Some v ->
      percentage self = true ->
      outcome (get_space fa self) = Ok fainfo ->
      falsy fainfo = false ->
      float_ (fainfo !! "total") = Ok total ->
      float_ (fainfo !! "size") = Ok size ->
      is_zero size = false ->
      outcome (probe fa self) =
        Ok (OneMetric
              (mkMetric (v +:+ " occupancy")
                 (Float (mul_int (round (total / size) 2) 100))
                 (Some "%") (Some 0) (Some 100) (Some "occupancy")))
      /\ rounded_to_2_decimals (total / size) (round (total / size) 2))
  /\ (forall ep tok v,
        outcome (probe (Samples.reachable None {[ "total" := 1; "size" := 3 ]})
                       (__init__ ep tok (Some v) true)) =
          Ok (OneMetric
                (mkMetric (v +:+ " occupancy") (Float 33) (Some "%")
                          (Some 0) (Some 100) (Some "occupancy"))))
  /\ mul_int (1 / 3) 100 = 0x1.0aaaaaaaaaaaap+5%float
  /\ (forall ep tok v,
        outcome (probe (Samples.reachable None {[ "total" := 1; "size" := 8 ]})
                       (__init__ ep tok (Some v) true)) =
          Ok (OneMetric
                (mkMetric (v +:+ " occupancy") (Float 12) (Some "%")
                          (Some 0) (Some 100) (Some "occupancy"))))
  /\ (forall ep tok v,
        outcome (probe (Samples.reachable None
                          {[ "total" := 57; "size" := 100 ]})
                       (__init__ ep tok (Some v) true)) =
          Ok (OneMetric
                (mkMetric (v +:+ " occupancy")
                          (Float 0x1.c7fffffffffffp+5) (Some "%")
                          (Some 0) (Some 100) (Some "occupancy"))))
  /\ round (mul_int (57 / 100) 100) 2 = 57%float.
Proof.
  split; [|split; [|split; [|split; [|split]]]].
  - intros fa self v fainfo total size Hv Hp Hf Hne Ht Hs Hz.
    split; [|apply round_is_rounded].
    rewrite (probe_fetched fa self fainfo Hf), Hne, Hv, Hp.
    by rewrite Ht, Hs, (truediv_nonzero _ _ Hz).
  - intros ep tok v. by vm_compute.
  - reflexivity.
  - intros ep tok v. by vm_compute.
  - intros ep tok v. by vm_compute.
  - reflexivity.
Qed.

(** The ratio 1/3 is rounded to the double nearest 0.33 before the
    multiplication: the value is 33.0. *)
Lemma C6_volume_percentage_witness :
  (outcome (probe (Samples.reachable None {[ "total" := 1; "size" := 3 ]})
                  (__init__ "array" "token" (Some "vol1") true)) =
     Ok (OneMetric
           (mkMetric "vol1 occupancy"
              (Float (mul_int (round (1 / 3) 2) 100))
              (Some "%") (Some 0) (Some 100) (Some "occupancy")))
   /\ rounded_to_2_decimals (1 / 3) (round (1 / 3) 2))
  /\ mul_int (round (1 / 3) 2) 100 = 33%float.
Proof.
  split; [|reflexivity].
  apply (proj1 C6_volume_percentage
           (Samples.reachable None {[ "total" := 1; "size" := 3 ]})
           (__init__ "array" "token" (Some "vol1") true)
           "vol1" {[ "total" := 1; "size" := 3 ]} 1%float 3%float).
  - reflexivity.
  - reflexivity.
  - reflexivity.
  - reflexivity.
  - reflexivity.
  - reflexivity.
  - reflexivity.
Defined.

(** C7. In per-volume byte mode (the percentage flag not set), a non-falsy
    volume space record with a [volumes] field gives exactly one metric
    named "<volume> occupancy", unit B (bytes), min 0, no max, whose value
    is the integer in that field; {volumes: 12345} gives 12345. *)
Theorem C7_volume_bytes :
  (forall fa self v fainfo n,
      volname self = Some v ->
      percentage self = false ->
      outcome (get_space fa self) = Ok fainfo ->
      falsy fainfo = false ->
      fainfo !! "volumes" = Some n ->
      outcome (probe fa self) =
        Ok (OneMetric
              (mkMetric (v +:+ " occupancy") (Int n) (Some "B") (Some 0)
                        None (Some "occupancy"))))
  /\ (forall ep tok v,
        outcome (probe (Samples.reachable None {[ "volumes" := 12345 ]})
                       (__init__ ep tok (Some v) false)) =
          Ok (OneMetric
                (mkMetric (v +:+ " occupancy") (Int 12345) (Some "B")
                          (Some 0) None (Some "occupancy")))).
Proof.
  assert (forall fa self v fainfo n,
      volname self = Some v ->
      percentage self = false ->
      outcome (get_space fa self) = Ok fainfo ->
      falsy fainfo = false ->
      fainfo !! "volumes" = Some n ->
      outcome (probe fa self) =
        Ok (OneMetric
              (mkMetric (v +:+ " occupancy") (Int n) (Some "B") (Some 0)
                        None (Some "occupancy")))) as H.
  { intros fa self v fainfo n Hv Hp Hf Hne Hn.
    rewrite (probe_fetched fa self fainfo Hf), Hne, Hv, Hp.
    by rewrite Hn. }
  split; [exact H|].
  intros ep tok v. apply (H _ _ v {[ "volumes" := 12345 ]}); try done.
Qed.

Lemma C7_volume_bytes_witness :
  outcome (probe (Samples.reachable None
                    {[ "volumes" := 12345; "total" := 20000 ]})
                 (__init__ "array" "token" (Some "vol1") false)) =
    Ok (OneMetric
          (mkMetric "vol1 occupancy" (Int 12345) (Some "B") (Some 0)
                    None (Some "occupancy"))).
Proof.
  apply (proj1 C7_volume_bytes
           (Samples.reachable None {[ "volumes" := 12345; "total" := 20000 ]})
           (__init__ "array" "token" (Some "vol1") false)
           "vol1" {[ "volumes" := 12345; "total" := 20000 ]} 12345).
  - reflexivity.
  - reflexivity.
  - reflexivity.
  - reflexivity.
  - reflexivity.
Defined.

End OccupancyFacts.

(** ** The overall verdict *)

Module VerdictFacts.
Import Py purestorage Eff nagiosplugin AggregateFacts.

(** C1. The overall verdict of the Verdict Aggregator is UNKNOWN when no
    verdict is supplied and when some supplied verdict is UNKNOWN;
    otherwise it is one of the supplied verdicts and no supplied verdict is
    more severe in the order OK < WARNING < CRITICAL; it does not depend on
    the order of the verdicts.  In particular, when the Occupancy Sampler
    fetches a falsy record, its probe returns no metric and the overall
    verdict is UNKNOWN, not OK. *)
Theorem C1_overall_verdict :
  aggregate [] = UNKNOWN
  /\ (forall vs, In UNKNOWN vs -> aggregate vs = UNKNOWN)
  /\ (forall vs,
        vs <> [] ->
        In (aggregate vs) vs
        /\ (forall v, In v vs -> rank v <= rank (aggregate vs)))
  /\ (forall vs vs', Permutation vs vs' -> aggregate vs = aggregate vs')
  /\ (forall args fa fainfo,
        outcome
          (check_purefa_occpy.get_space fa
             (check_purefa_occpy.__init__
                (check_purefa_occpy.args_endpoint args)
                (check_purefa_occpy.args_apitoken args)
                (check_purefa_occpy.vol args)
                (check_purefa_occpy.args_percentage args)))
        = Ok fainfo ->
        check_purefa_occpy.falsy fainfo = true ->
        outcome
          (check_purefa_occpy.probe fa
             (check_purefa_occpy.__init__
                (check_purefa_occpy.args_endpoint args)
                (check_purefa_occpy.args_apitoken args)
                (check_purefa_occpy.vol args)
                (check_purefa_occpy.args_percentage args)))
        = Ok check_purefa_occpy.EmptyStr
        /\ check_purefa_occpy.main args fa = UNKNOWN).
Proof.
  split; [done|]. split; [apply aggregate_unknown|].
  split; [|split; [apply aggregate_perm|]].
  - intros vs Hne. split; [by apply aggregate_in|].
    intros v. apply aggregate_upper.
  - intros args fa fainfo Hf Hfalsy.
    pose proof (OccupancyFacts.probe_fetched fa _ fainfo Hf) as Hp.
    rewrite Hfalsy in Hp. split; [done|].
    unfold check_purefa_occpy.main, check_purefa_occpy.probed.
    by rewrite Hp.
Qed.

Lemma C1_overall_verdict_witness :
  aggregate [OK; UNKNOWN; CRITICAL] = UNKNOWN
  /\ (In (aggregate [WARNING; CRITICAL; OK]) [WARNING; CRITICAL; OK]
      /\ rank CRITICAL <= rank (aggregate [WARNING; CRITICAL; OK]))
  /\ aggregate [OK; WARNING] = aggregate [WARNING; OK]
  /\ check_purefa_occpy.main
       (check_purefa_occpy.parse_args "array" "token" None
          (Some "0:80") (Some "0:95") false)
       (Samples.reachable None ∅) = UNKNOWN.
Proof.
  destruct C1_overall_verdict as (_ & Hu & Hmax & Hperm & Hocc).
  split; [|split; [|split]].
  - apply Hu. simpl. auto.
  - destruct (Hmax [WARNING; CRITICAL; OK] ltac:(discriminate)) as [Hin Hup].
    split; [exact Hin|]. apply Hup. simpl. auto.
  - apply Hperm. apply perm_swap.
  - eapply Hocc; reflexivity.
Defined.

(** C5. The Threshold Evaluator tests the critical range first: the
    verdict is CRITICAL exactly when the critical range does not accept the
    value, WARNING exactly when the critical range accepts it and the
    warning range does not, OK exactly when both accept it; it is the more
    severe of the verdicts of the two ranges taken alone; an absent range
    accepts everything; the verdict is a function of the metric's value and
    the two ranges, and is never UNKNOWN. *)
Theorem C5_threshold_evaluator :
  forall m w c,
    let v := xval_of (value m) in
    evaluate m w c =
      (if negb (accepts_opt c v) then CRITICAL
       else if negb (accepts_opt w v) then WARNING else OK)
    /\ (evaluate m w c = CRITICAL <-> accepts_opt c v = false)
    /\ (evaluate m w c = WARNING
        <-> accepts_opt c v = true /\ accepts_opt w v = false)
    /\ (evaluate m w c = OK
        <-> accepts_opt c v = true /\ accepts_opt w v = true)
    /\ evaluate m w c = worse (evaluate m None c) (evaluate m w None)
    /\ accepts_opt None v = true
    /\ evaluate m None None = OK
    /\ evaluate m w c <> UNKNOWN
    /\ (forall m', value m' = value m -> evaluate m' w c = evaluate m w c).
Proof.
  intros m w c v.
  assert (evaluate m w c =
            if negb (accepts_opt c v) then CRITICAL
            else if negb (accepts_opt w v) then WARNING else OK) as E
    by reflexivity.
  assert (evaluate m None c = if negb (accepts_opt c v) then CRITICAL else OK)
    as Ec by (unfold evaluate; fold v; by destruct (accepts_opt c v)).
  assert (evaluate m w None = if negb (accepts_opt w v) then WARNING else OK)
    as Ew by reflexivity.
  assert (forall m', value m' = value m ->
            evaluate m' w c =
              if negb (accepts_opt c v) then CRITICAL
              else if negb (accepts_opt w v) then WARNING else OK) as Hfun
    by (intros m' Hm; unfold evaluate; by rewrite Hm).
  rewrite Ec, Ew, E. change (evaluate m None None) with OK.
  revert Hfun.
  destruct (accepts_opt c v), (accepts_opt w v); cbn; intros Hfun;
    repeat split; try done; try tauto; try (intros [??]; done).
Qed.

Lemma C5_threshold_evaluator_witness :
  evaluate (mkMetric "critical" (Int 2) None (Some 0) None None)
           None (Some (Interval false (Some 0%Q) (Some 1%Q))) = CRITICAL
  /\ evaluate (mkMetric "other" (Int 2) (Some "B") None None None)
              None (Some (Interval false (Some 0%Q) (Some 1%Q)))
     = evaluate (mkMetric "critical" (Int 2) None (Some 0) None None)
                None (Some (Interval false (Some 0%Q) (Some 1%Q))).
Proof.
  destruct (C5_threshold_evaluator
              (mkMetric "critical" (Int 2) None (Some 0) None None)
              None (Some (Interval false (Some 0%Q) (Some 1%Q))))
    as (_ & Hcrit & _ & _ & _ & _ & _ & _ & Hfun).
  split.
  - apply Hcrit. reflexivity.
  - apply Hfun. reflexivity.
Defined.

End VerdictFacts.

(** ** Failures of the data source *)

Module FetchFacts.
Import Py purestorage Eff nagiosplugin.

(** The text of the REST error carries the text of its cause, between
    double quotes. *)
Lemma rest_error_text e :
  kind (check_purefa_alert.rest_error e) = CheckError
  /\ contains (text e) (text (check_purefa_alert.rest_error e))
  /\ check_purefa_occpy.rest_error e = check_purefa_alert.rest_error e.
Proof.
  split; [done|]. split; [|done].
  by exists ("FA REST call returned " +:+ dquote), dquote.
Qed.

(** One case of a session: what was raised or returned, and a trace
    without a repeated call. *)
Ltac session_case :=
  repeat split; try done; try (intros; congruence);
  repeat (first [apply NoDup_nil_2 | apply NoDup_cons_2]);
  rewrite ?not_elem_of_cons; repeat split;
  try discriminate; apply not_elem_of_nil.

(** The session of [get_alerts], call by call. *)
Lemma get_alerts_session fa self :
  let run := check_purefa_alert.get_alerts fa self in
  let login :=
    connect fa (check_purefa_alert.endpoint self)
               (check_purefa_alert.apitoken self) in
  NoDup (trace run)
  /\ final run = self
  /\ (forall e, login = Raise e ->
        outcome run = Raise (check_purefa_alert.rest_error e))
  /\ (forall e, login = Ok tt -> list_messages fa = Raise e ->
        outcome run = Raise (check_purefa_alert.rest_error e))
  /\ (forall e x, login = Ok tt -> list_messages fa = Ok x ->
        invalidate_cookie fa = Raise e ->
        outcome run = Raise (check_purefa_alert.rest_error e))
  /\ (forall x, login = Ok tt -> list_messages fa = Ok x ->
        invalidate_cookie fa = Ok tt -> outcome run = Ok x).
Proof.
  unfold check_purefa_alert.get_alerts, try_except, bind, get_self, perform,
    ret, raise, outcome, final, trace.
  cbn. destruct (connect fa _ _) as [[]|e1]; cbn.
  2:{ session_case. }
  destruct (list_messages fa) as [x|e2]; cbn.
  2:{ session_case. }
  destruct (invalidate_cookie fa) as [[]|e3]; cbn; session_case.
Qed.

(** The session of [get_space], call by call. *)
Lemma get_space_session fa self :
  let run := check_purefa_occpy.get_space fa self in
  let login :=
    connect fa (check_purefa_occpy.endpoint self)
               (check_purefa_occpy.apitoken self) in
  let fetch :=
    match check_purefa_occpy.volname self with
    | None => match get fa with Ok l => first l | Raise e => Raise e end
    | Some v => get_volume fa v
    end in
  NoDup (trace run)
  /\ final run = self
  /\ (forall e, login = Raise e ->
        outcome run = Raise (check_purefa_occpy.rest_error e))
  /\ (forall e, login = Ok tt -> fetch = Raise e ->
        outcome run = Raise (check_purefa_occpy.rest_error e))
  /\ (forall e x, login = Ok tt -> fetch = Ok x ->
        invalidate_cookie fa = Raise e ->
        outcome run = Raise (check_purefa_occpy.rest_error e))
  /\ (forall x, login = Ok tt -> fetch = Ok x ->
        invalidate_cookie fa = Ok tt -> outcome run = Ok x).
Proof.
  unfold check_purefa_occpy.get_space, try_except, bind, get_self, perform,
    lift, ret, raise, outcome, final, trace.
  cbn. destruct (connect fa _ _) as [[]|e1]; cbn.
  2:{ session_case. }
  destruct (check_purefa_occpy.volname self) as [v|]; cbn.
  - destruct (get_volume fa v) as [x|e2]; cbn.
    2:{ session_case. }
    destruct (invalidate_cookie fa) as [[]|e3]; cbn; session_case.
  - destruct (get fa) as [l|e2]; cbn.
    2:{ session_case. }
    destruct (first l) as [x|e2']; cbn.
    2:{ session_case. }
    destruct (invalidate_cookie fa) as [[]|e3]; cbn; session_case.
Qed.

(** A failed fetch is all that [probe] of the Alert Counter returns. *)
Lemma alert_probe_not_fetched fa self ce :
  outcome (check_purefa_alert.get_alerts fa self) = Raise ce ->
  check_purefa_alert.probe fa self =
    (Raise ce, self, trace (check_purefa_alert.get_alerts fa self)).
Proof.
  intros H. unfold check_purefa_alert.probe, bind.
  destruct (get_alerts_session fa self) as (_ & Hs & _). cbv zeta in Hs.
  rewrite (run_eta (check_purefa_alert.get_alerts fa self)), H, Hs. done.
Qed.

Lemma alert_probe_fetched fa self x e :
  outcome (check_purefa_alert.get_alerts fa self) = Ok x ->
  outcome (check_purefa_alert.probe fa self) = Raise e ->
  kind e = KeyError.
Proof.
  intros H. unfold check_purefa_alert.probe, bind.
  rewrite (run_eta (check_purefa_alert.get_alerts fa self)), H.
  destruct (check_purefa_alert.falsy x); [done|].
  pose proof (AlertFacts.loop_raises (check_purefa_alert.records x)
                (final (check_purefa_alert.get_alerts fa self))) as Hl.
  destruct (for_each _ _ _) as [[[[]|e1] s1] t1]; cbn.
  - done.
  - intros [= <-]. by apply Hl.
Qed.

Lemma occupancy_probe_fetched fa self x e :
  outcome (check_purefa_occpy.get_space fa self) = Ok x ->
  outcome (check_purefa_occpy.probe fa self) = Raise e ->
  kind e <> CheckError.
Proof.
  intros H. rewrite (OccupancyFacts.probe_fetched fa self x H).
  destruct (check_purefa_occpy.falsy x); [done|].
  assert (forall o f, float_ o = Raise f -> kind f <> CheckError) as Hfl.
  { intros [z|] f; cbn; [|by intros [= <-]].
    unfold float_of_int. destruct (is_infinity _); [|done]. by intros [= <-]. }
  assert (forall a b f, truediv a b = Raise f -> kind f <> CheckError) as Hdiv.
  { intros a b f. unfold truediv. destruct (is_zero b); [|done].
    by intros [= <-]. }
  assert (forall o f, int_ o = Raise f -> kind f <> CheckError) as Hint.
  { intros [z|] f; cbn; [done|]. by intros [= <-]. }
  destruct (check_purefa_occpy.volname self) as [v|];
    [destruct (check_purefa_occpy.percentage self)|].
  - destruct (float_ (x !! "total")) as [t|f] eqn:Et;
      [|intros [= <-]; by eapply Hfl].
    destruct (float_ (x !! "size")) as [c|f] eqn:Ec;
      [|intros [= <-]; by eapply Hfl].
    destruct (truediv t c) as [r|f] eqn:Er; [done|].
    intros [= <-]. by eapply Hdiv.
  - destruct (int_ (x !! "volumes")) as [n|f] eqn:En; [done|].
    intros [= <-]. by eapply Hint.
  - destruct (float_ (x !! "total")) as [t|f] eqn:Et;
      [|intros [= <-]; by eapply Hfl].
    destruct (float_ (x !! "capacity")) as [c|f] eqn:Ec;
      [|intros [= <-]; by eapply Hfl].
    destruct (truediv t c) as [r|f] eqn:Er; [done|].
    intros [= <-]. by eapply Hdiv.
Qed.

(** C8. Whatever call of the REST session raises (opening the session,
    fetching, closing the session), both Metric Sources raise a
    [CheckError] whose message contains the text of that error; no call is
    made twice, the instance is left as it was, [probe] returns nothing but
    that error, and the overall verdict is UNKNOWN.  When every call of the
    session returns, the fetch returns the fetched value and [probe] raises
    no [CheckError]. *)
Theorem C8_fetch_failure_is_fatal :
  (forall e,
      kind (check_purefa_alert.rest_error e) = CheckError
      /\ contains (text e) (text (check_purefa_alert.rest_error e))
      /\ check_purefa_occpy.rest_error e = check_purefa_alert.rest_error e)
  /\ (forall fa self,
        let run := check_purefa_alert.get_alerts fa self in
        let login :=
          connect fa (check_purefa_alert.endpoint self)
                     (check_purefa_alert.apitoken self) in
        NoDup (trace run)
        /\ final run = self
        /\ (forall e, login = Raise e ->
              outcome run = Raise (check_purefa_alert.rest_error e))
        /\ (forall e, login = Ok tt -> list_messages fa = Raise e ->
              outcome run = Raise (check_purefa_alert.rest_error e))
        /\ (forall e x, login = Ok tt -> list_messages fa = Ok x ->
              invalidate_cookie fa = Raise e ->
              outcome run = Raise (check_purefa_alert.rest_error e))
        /\ (forall x, login = Ok tt -> list_messages fa = Ok x ->
              invalidate_cookie fa = Ok tt -> outcome run = Ok x)
        /\ (forall ce, outcome run = Raise ce ->
              check_purefa_alert.probe fa self = (Raise ce, self, trace run))
        /\ (forall x e, outcome run = Ok x ->
              outcome (check_purefa_alert.probe fa self) = Raise e ->
              kind e <> CheckError))
  /\ (forall args fa ce,
        outcome
          (check_purefa_alert.get_alerts fa
             (check_purefa_alert.__init__
                (check_purefa_alert.args_endpoint args)
                (check_purefa_alert.args_apitoken args))) = Raise ce ->
        check_purefa_alert.main args fa = UNKNOWN)
  /\ (forall fa self,
        let run := check_purefa_occpy.get_space fa self in
        let login :=
          connect fa (check_purefa_occpy.endpoint self)
                     (check_purefa_occpy.apitoken self) in
        let fetch :=
          match check_purefa_occpy.volname self with
          | None => match get fa with Ok l => first l | Raise e => Raise e end
          | Some v => get_volume fa v
          end in
        NoDup (trace run)
        /\ final run = self
        /\ (forall e, login = Raise e ->
              outcome run = Raise (check_purefa_occpy.rest_error e))
        /\ (forall e, login = Ok tt -> fetch = Raise e ->
              outcome run = Raise (check_purefa_occpy.rest_error e))
        /\ (forall e x, login = Ok tt -> fetch = Ok x ->
              invalidate_cookie fa = Raise e ->
              outcome run = Raise (check_purefa_occpy.rest_error e))
        /\ (forall x, login = Ok tt -> fetch = Ok x ->
              invalidate_cookie fa = Ok tt -> outcome run = Ok x)
        /\ (forall ce, outcome run = Raise ce ->
              check_purefa_occpy.probe fa self = (Raise ce, self, trace run))
        /\ (forall x e, outcome run = Ok x ->
              outcome (check_purefa_occpy.probe fa self) = Raise e ->
              kind e <> CheckError))
  /\ (forall args fa ce,
        outcome
          (check_purefa_occpy.get_space fa
             (check_purefa_occpy.__init__
                (check_purefa_occpy.args_endpoint args)
                (check_purefa_occpy.args_apitoken args)
                (check_purefa_occpy.vol args)
                (check_purefa_occpy.args_percentage args))) = Raise ce ->
        check_purefa_occpy.main args fa = UNKNOWN).
Proof.
  split; [apply rest_error_text|]. split; [|split; [|split]].
  - intros fa self run login.
    destruct (get_alerts_session fa self) as (H1 & H2 & H3 & H4 & H5 & H6).
    do 6 (split; [done|]). split.
    + intros ce. apply alert_probe_not_fetched.
    + intros x e Hx He. by rewrite (alert_probe_fetched fa self x e Hx He).
  - intros args fa ce H. unfold check_purefa_alert.main.
    by rewrite (alert_probe_not_fetched _ _ ce H).
  - intros fa self run login fetch.
    destruct (get_space_session fa self) as (H1 & H2 & H3 & H4 & H5 & H6).
    do 6 (split; [done|]). split.
    + intros ce Hce. rewrite (run_eta (check_purefa_occpy.probe fa self)).
      rewrite (OccupancyFacts.probe_not_fetched fa self ce Hce).
      by rewrite OccupancyFacts.probe_trace, OccupancyFacts.probe_final.
    + intros x e. apply occupancy_probe_fetched.
  - intros args fa ce H.
    unfold check_purefa_occpy.main, check_purefa_occpy.probed.
    by rewrite (OccupancyFacts.probe_not_fetched _ _ ce H).
Qed.

Lemma C8_fetch_failure_is_fatal_witness :
  outcome
    (check_purefa_alert.get_alerts (Samples.unreachable "401 Unauthorized")
       (check_purefa_alert.__init__ "array" "token"))
  = Raise (check_purefa_alert.rest_error (Exn PureError "401 Unauthorized"))
  /\ check_purefa_occpy.main
       (check_purefa_occpy.parse_args "array" "token" (Some "vol1")
          None None false)
       (Samples.unreachable "401 Unauthorized") = UNKNOWN
  /\ outcome
       (check_purefa_occpy.get_space
          (Samples.reachable None {[ "volumes" := 12345 ]})
          (check_purefa_occpy.__init__ "array" "token" (Some "vol1") false))
     = Ok {[ "volumes" := 12345 ]}.
Proof.
  destruct C8_fetch_failure_is_fatal as (_ & Ha & _ & Ho & Hm).
  split; [|split].
  - destruct (Ha (Samples.unreachable "401 Unauthorized")
                 (check_purefa_alert.__init__ "array" "token"))
      as (_ & _ & H & _).
    apply H. reflexivity.
  - eapply Hm. reflexivity.
  - destruct (Ho (Samples.reachable None {[ "volumes" := 12345 ]})
                 (check_purefa_occpy.__init__ "array" "token"
                    (Some "vol1") false))
      as (_ & _ & _ & _ & _ & H & _).
    apply H; reflexivity.
Defined.

End FetchFacts.

(** ** More on the Alert Counter *)

Module AlertMore.
Import Py purestorage Eff nagiosplugin check_purefa_alert AlertFacts.

(** The three calls of a session that runs to its end. *)
Lemma loop_trace l s : trace (for_each l count_alert s) = [].
Proof.
  revert s. induction l as [|a l IH]; intros s; [done|].
  cbn [for_each]. unfold bind.
  destruct (a !! "current_severity") as [sev|] eqn:Ha.
  - rewrite (count_alert_run a sev s Ha).
    specialize (IH (add_counts s (count "critical" [a]) (count "warning" [a])
                               (count "info" [a]))).
    destruct (for_each l count_alert _) as [[r2 s2] t2]. exact IH.
  - unfold count_alert, bind, lift, getitem. by rewrite Ha.
Qed.

(** The loop stops at the first record without the field, with the
    records before it counted. *)
Lemma loop_stops good bad rest s :
  Forall (fun a => is_Some (a !! "current_severity")) good ->
  bad !! "current_severity" = None ->
  for_each (good ++ bad :: rest) count_alert s =
    (Raise (Exn KeyError "'current_severity'"),
     add_counts s (count "critical" good) (count "warning" good)
                (count "info" good),
     []).
Proof.
  intros Hg Hb. revert s. induction Hg as [|a l [sev Ha] _ IH]; intros s.
  - cbn [app for_each]. unfold bind, count_alert, lift, getitem.
    rewrite Hb. cbn. by rewrite !count_nil, add_counts_0.
  - cbn [app for_each]. unfold bind.
    rewrite (count_alert_run a sev s Ha), IH, add_counts_add.
    cbn [app]. rewrite (count_cons _ a l), (count_cons "warning" a l),
      (count_cons "info" a l), !count_cons, !count_nil.
    repeat f_equal; lia.
Qed.

(** One turn of the loop never lowers a counter and never touches the
    address or the token. *)
Lemma count_alert_keeps a s :
  let s' := final (count_alert a s) in
  endpoint s' = endpoint s /\ apitoken s' = apitoken s
  /\ crit s <= crit s' /\ warn s <= warn s' /\ info s <= info s'
  /\ (crit s' - crit s) + (warn s' - warn s) + (info s' - info s) <= 1.
Proof.
  destruct (a !! "current_severity") as [sev|] eqn:Ha.
  - rewrite (count_alert_run a sev s Ha). unfold final. cbn [fst snd].
    rewrite !count_cons, !count_nil, Ha. unfold add_counts. cbn.
    repeat case_bool_decide; simplify_eq; repeat split; try done; lia.
  - unfold count_alert, bind, lift, getitem, final. rewrite Ha. cbn.
    repeat split; try done; lia.
Qed.

Lemma loop_keeps l s :
  let s' := final (for_each l count_alert s) in
  endpoint s' = endpoint s /\ apitoken s' = apitoken s
  /\ crit s <= crit s' /\ warn s <= warn s' /\ info s <= info s'
  /\ (crit s' - crit s) + (warn s' - warn s) + (info s' - info s)
     <= Z.of_nat (length l).
Proof.
  revert s. induction l as [|a l IH]; intros s.
  - unfold final. cbn. repeat split; try done; lia.
  - cbn [for_each length]. unfold bind.
    pose proof (count_alert_keeps a s) as Ha. cbv zeta in Ha.
    destruct (count_alert a s) as [[[[]|e1] s1] t1]; unfold final in *;
      cbn [fst snd] in *.
    + specialize (IH s1). cbv zeta in IH.
      destruct (for_each l count_alert s1) as [[r2 s2] t2].
      unfold final in *. cbn [fst snd] in *.
      destruct Ha as (Ea & Ta & ?), IH as (Eb & Tb & ?).
      repeat split; try congruence; lia.
    + destruct Ha as (Ea & Ta & ?). repeat split; try congruence; lia.
Qed.

Lemma count_perm sev l l' : Permutation l l' -> count sev l = count sev l'.
Proof.
  induction 1 as [|a l l' _ IH|a b l|l l' l'' _ IH1 _ IH2].
  - done.
  - by rewrite !count_cons, IH.
  - rewrite !count_cons. lia.
  - by rewrite IH1.
Qed.

Lemma count_app sev l1 l2 : count sev (l1 ++ l2) = count sev l1 + count sev l2.
Proof.
  induction l1 as [|a l1 IH]; [by rewrite count_nil|].
  cbn [app]. rewrite !count_cons, IH. lia.
Qed.

Lemma count_recognised sev l :
  sev = "critical" \/ sev = "warning" \/ sev = "info" ->
  count sev (List.filter AlertResource.recognised l) = count sev l.
Proof.
  intros Hsev. induction l as [|a l IH]; [done|].
  cbn [List.filter]. destruct (AlertResource.recognised a) eqn:Hr.
  - by rewrite !count_cons, IH.
  - rewrite IH, count_cons. rewrite bool_decide_eq_false_2; [lia|].
    intros Ha. unfold AlertResource.recognised in Hr. rewrite Ha in Hr.
    by destruct Hsev as [-> | [-> | ->]].
Qed.

Lemma filter_has_field l :
  Forall (fun a => is_Some (a !! "current_severity"))
         (List.filter AlertResource.recognised l).
Proof.
  induction l as [|a l IH]; [constructor|].
  cbn [List.filter]. destruct (AlertResource.recognised a) eqn:Hr; [|done].
  constructor; [|done]. unfold AlertResource.recognised in Hr.
  destruct (a !! "current_severity"); [by eexists|done].
Qed.

End AlertMore.

Module AlertExtras.
Import Py purestorage Eff nagiosplugin check_purefa_alert AlertFacts AlertMore.

(** When [get_alerts] returns, its three calls have returned. *)
Lemma get_alerts_returned fa self x :
  outcome (get_alerts fa self) = Ok x ->
  connect fa (endpoint self) (apitoken self) = Ok tt
  /\ list_messages fa = Ok x
  /\ invalidate_cookie fa = Ok tt.
Proof.
  destruct (FetchFacts.get_alerts_session fa self)
    as (_ & _ & H1 & H2 & H3 & H4). cbv zeta in *.
  destruct (connect fa _ _) as [[]|e1] eqn:E1.
  2:{ rewrite (H1 e1 eq_refl). done. }
  destruct (list_messages fa) as [y|e2] eqn:E2.
  2:{ rewrite (H2 e2 eq_refl eq_refl). done. }
  destruct (invalidate_cookie fa) as [[]|e3] eqn:E3.
  2:{ rewrite (H3 e3 y eq_refl eq_refl eq_refl). done. }
  rewrite (H4 y eq_refl eq_refl eq_refl). by intros [= ->].
Qed.

(** X1. A record without the [current_severity] field makes [probe] raise
    KeyError after the session has been closed; the records before it have
    been counted and stay counted on the instance. *)
Theorem alert_probe_missing_field :
  forall fa self good bad rest,
    connect fa (endpoint self) (apitoken self) = Ok tt ->
    list_messages fa = Ok (Some (good ++ bad :: rest)) ->
    invalidate_cookie fa = Ok tt ->
    Forall (fun a => is_Some (a !! "current_severity")) good ->
    bad !! "current_severity" = None ->
    probe fa self =
      (Raise (Exn KeyError "'current_severity'"),
       add_counts self (count "critical" good) (count "warning" good)
                  (count "info" good),
       [CallFlashArray (endpoint self) (apitoken self); CallListMessages;
        CallInvalidateCookie]).
Proof.
  intros fa self good bad rest H1 H2 H3 Hg Hb. unfold probe, bind.
  rewrite (get_alerts_ok fa self _ H1 H2 H3).
  assert (falsy (Some (good ++ bad :: rest)) = false) as ->
    by (by destruct good).
  cbn [records]. rewrite (loop_stops good bad rest self Hg Hb). done.
Qed.

Lemma alert_probe_missing_field_witness :
  probe (Samples.reachable
           (Some [Samples.alert "critical"; ∅; Samples.alert "warning"]) ∅)
        (__init__ "array" "token") =
    (Raise (Exn KeyError "'current_severity'"),
     add_counts (__init__ "array" "token")
       (count "critical" [Samples.alert "critical"])
       (count "warning" [Samples.alert "critical"])
       (count "info" [Samples.alert "critical"]),
     [CallFlashArray "array" "token"; CallListMessages;
      CallInvalidateCookie])
  /\ crit (add_counts (__init__ "array" "token")
             (count "critical" [Samples.alert "critical"])
             (count "warning" [Samples.alert "critical"])
             (count "info" [Samples.alert "critical"])) = 1.
Proof.
  split; [|reflexivity].
  apply (alert_probe_missing_field
           (Samples.reachable
              (Some [Samples.alert "critical"; ∅; Samples.alert "warning"]) ∅)
           (__init__ "array" "token")
           [Samples.alert "critical"] ∅ [Samples.alert "warning"]).
  - reflexivity.
  - reflexivity.
  - reflexivity.
  - repeat constructor; by eexists.
  - reflexivity.
Defined.

(** X2. Whatever the array answers and whatever the instance holds, a call of
    [probe] leaves the address and the token alone, lowers no counter, and
    raises the three counters together by at most the number of records
    fetched. *)
Theorem alert_probe_counters_grow :
  forall fa self,
    let self' := final (probe fa self) in
    endpoint self' = endpoint self
    /\ apitoken self' = apitoken self
    /\ crit self <= crit self'
    /\ warn self <= warn self'
    /\ info self <= info self'
    /\ (forall x,
          list_messages fa = Ok x ->
          (crit self' - crit self) + (warn self' - warn self)
          + (info self' - info self) <= Z.of_nat (length (records x)))
    /\ (forall e, list_messages fa = Raise e -> self' = self).
Proof.
  intros fa self. unfold probe, bind.
  destruct (FetchFacts.get_alerts_session fa self) as (_ & Hfin & _).
  cbv zeta in Hfin.
  pose proof (get_alerts_returned fa self) as Hret.
  rewrite (run_eta (get_alerts fa self)), Hfin.
  destruct (outcome (get_alerts fa self)) as [x|e].
  - destruct (Hret x eq_refl) as (_ & Hx & _).
    destruct (falsy x).
    + unfold final. cbn. repeat split; try done; try (intros; lia).
    + pose proof (loop_keeps (records x) self) as Hl. cbv zeta in Hl.
      destruct (for_each (records x) count_alert self)
        as [[[[]|e1] s1] t1]; unfold final in *; cbn [fst snd] in *.
      * destruct Hl as (He & Ht & Hc & Hw & Hi & Hb).
        repeat split; try done.
        -- intros y Hy. rewrite Hx in Hy. by injection Hy as <-.
        -- intros e He'. congruence.
      * destruct Hl as (He & Ht & Hc & Hw & Hi & Hb).
        repeat split; try done.
        -- intros y Hy. rewrite Hx in Hy. by injection Hy as <-.
        -- intros e He'. congruence.
  - unfold final. cbn. repeat split; try done; try (intros; lia).
Qed.

(** X3. When the array reports no open alert (an absent or an empty list),
    [probe] returns three zeros whatever the counters of the instance hold,
    and leaves the counters as they are; when it reports records none of
    which is critical, warning or info, [probe] returns the counters. *)
Theorem alert_probe_no_alert :
  forall fa self fainfo,
    connect fa (endpoint self) (apitoken self) = Ok tt ->
    list_messages fa = Ok fainfo ->
    invalidate_cookie fa = Ok tt ->
    Forall (fun a => is_Some (a !! "current_severity")) (records fainfo) ->
    count "critical" (records fainfo) = 0 ->
    count "warning" (records fainfo) = 0 ->
    count "info" (records fainfo) = 0 ->
    final (probe fa self) = self
    /\ outcome (probe fa self) =
         Ok (if falsy fainfo then metrics 0 0 0
             else metrics (crit self) (warn self) (info self)).
Proof.
  intros fa self fainfo H1 H2 H3 HF Hc Hw Hi.
  rewrite (probe_run fa self fainfo H1 H2 H3 HF).
  unfold final, outcome. cbn [fst snd]. rewrite Hc, Hw, Hi, add_counts_0.
  split; [done|]. by destruct (falsy fainfo).
Qed.

Lemma alert_probe_no_alert_witness :
  outcome
    (probe (Samples.reachable (Some []) ∅)
       (add_counts (__init__ "array" "token") 2 1 0))
  = Ok (metrics 0 0 0)
  /\ outcome
       (probe (Samples.reachable (Some [Samples.alert "hidden"]) ∅)
          (add_counts (__init__ "array" "token") 2 1 0))
     = Ok (metrics 2 1 0).
Proof.
  split.
  - refine (proj2 (alert_probe_no_alert (Samples.reachable (Some []) ∅)
                     (add_counts (__init__ "array" "token") 2 1 0)
                     (Some []) _ _ _ _ _ _ _)); try reflexivity.
    constructor.
  - refine (proj2 (alert_probe_no_alert
                     (Samples.reachable (Some [Samples.alert "hidden"]) ∅)
                     (add_counts (__init__ "array" "token") 2 1 0)
                     (Some [Samples.alert "hidden"]) _ _ _ _ _ _ _));
      try reflexivity.
    repeat constructor; by eexists.
Defined.

(** X4. On a new instance and for records that all have the
    [current_severity] field, the records whose severity is none of
    critical, warning and info do not count: [probe] returns the same
    metrics as for the record list without them.  (A record without the
    field raises KeyError instead, see X1.) *)
Theorem alert_probe_ignores_other_severities :
  forall fa fa' ep tok l,
    connect fa ep tok = Ok tt ->
    list_messages fa = Ok (Some l) ->
    invalidate_cookie fa = Ok tt ->
    connect fa' ep tok = Ok tt ->
    list_messages fa' = Ok (Some (List.filter AlertResource.recognised l)) ->
    invalidate_cookie fa' = Ok tt ->
    Forall (fun a => is_Some (a !! "current_severity")) l ->
    outcome (probe fa (__init__ ep tok))
    = outcome (probe fa' (__init__ ep tok)).
Proof.
  intros fa fa' ep tok l H1 H2 H3 H1' H2' H3' HF.
  rewrite (probe_run fa (__init__ ep tok) (Some l) H1 H2 H3 HF).
  rewrite (probe_run fa' (__init__ ep tok) _ H1' H2' H3'
             (filter_has_field l)).
  unfold outcome. cbn [fst records].
  rewrite !count_recognised by auto.
  unfold add_counts, __init__. cbn [crit warn info].
  destruct (falsy (Some l)) eqn:Hl.
  - destruct l; [done|discriminate].
  - destruct (falsy (Some (List.filter AlertResource.recognised l)))
      eqn:Hf; [|done].
    assert (List.filter AlertResource.recognised l = []) as Hnil
      by (by destruct (List.filter AlertResource.recognised l)).
    rewrite <- (count_recognised "critical" l),
            <- (count_recognised "warning" l),
            <- (count_recognised "info" l) by auto.
    by rewrite Hnil.
Qed.

Lemma alert_probe_ignores_other_severities_witness :
  outcome
    (probe (Samples.reachable
              (Some [Samples.alert "hidden"; Samples.alert "critical"]) ∅)
           (__init__ "array" "token"))
  = outcome
      (probe (Samples.reachable (Some [Samples.alert "critical"]) ∅)
             (__init__ "array" "token")).
Proof.
  apply (alert_probe_ignores_other_severities
           (Samples.reachable
              (Some [Samples.alert "hidden"; Samples.alert "critical"]) ∅)
           (Samples.reachable (Some [Samples.alert "critical"]) ∅)
           "array" "token"
           [Samples.alert "hidden"; Samples.alert "critical"]).
  - reflexivity.
  - reflexivity.
  - reflexivity.
  - reflexivity.
  - reflexivity.
  - reflexivity.
  - repeat constructor; by eexists.
Defined.

(** X5. When every record has the [current_severity] field, the order in
    which the array lists the alerts does not matter: for two listings of
    the same records, [probe] returns the same metrics, leaves the same
    counters and makes the same calls.  (With a record that lacks the
    field the order does matter: the records listed before it are counted,
    see X1.) *)
Theorem alert_probe_order_irrelevant :
  forall fa fa' self l l',
    connect fa (endpoint self) (apitoken self) = Ok tt ->
    list_messages fa = Ok (Some l) ->
    invalidate_cookie fa = Ok tt ->
    connect fa' (endpoint self) (apitoken self) = Ok tt ->
    list_messages fa' = Ok (Some l') ->
    invalidate_cookie fa' = Ok tt ->
    Permutation l l' ->
    Forall (fun a => is_Some (a !! "current_severity")) l ->
    probe fa self = probe fa' self.
Proof.
  intros fa fa' self l l' H1 H2 H3 H1' H2' H3' HP HF.
  assert (Forall (fun a => is_Some (a !! "current_severity")) l') as HF'.
  { rewrite Forall_forall in *. intros a Ha. apply HF.
    apply list_elem_of_In. apply list_elem_of_In in Ha.
    by apply (Permutation_in _ (Permutation_sym HP)). }
  rewrite (probe_run fa self (Some l) H1 H2 H3 HF).
  rewrite (probe_run fa' self (Some l') H1' H2' H3' HF').
  cbn [records].
  rewrite (count_perm "critical" l l' HP), (count_perm "warning" l l' HP),
    (count_perm "info" l l' HP).
  assert (falsy (Some l) = falsy (Some l')) as ->; [|done].
  destruct l, l'; try done.
  - by apply Permutation_nil_cons in HP.
  - symmetry in HP. by apply Permutation_nil_cons in HP.
Qed.

Lemma alert_probe_order_irrelevant_witness :
  probe (Samples.reachable
           (Some [Samples.alert "warning"; Samples.alert "critical"]) ∅)
        (__init__ "array" "token")
  = probe (Samples.reachable
             (Some [Samples.alert "critical"; Samples.alert "warning"]) ∅)
          (__init__ "array" "token").
Proof.
  apply (alert_probe_order_irrelevant
           (Samples.reachable
              (Some [Samples.alert "warning"; Samples.alert "critical"]) ∅)
           (Samples.reachable
              (Some [Samples.alert "critical"; Samples.alert "warning"]) ∅)
           (__init__ "array" "token")
           [Samples.alert "warning"; Samples.alert "critical"]
           [Samples.alert "critical"; Samples.alert "warning"]).
  - reflexivity.
  - reflexivity.
  - reflexivity.
  - reflexivity.
  - reflexivity.
  - reflexivity.
  - apply perm_swap.
  - repeat constructor; by eexists.
Defined.

(** X6. Two calls of [probe] on one instance add up: when every record
    fetched by either call has the [current_severity] field and the second
    call fetches at least one record, the second call returns what a
    single call would return for the records of both calls together, and
    leaves the same counters. *)
Theorem alert_probe_calls_add_up :
  forall fa1 fa2 fa12 self l1 l2,
    connect fa1 (endpoint self) (apitoken self) = Ok tt ->
    list_messages fa1 = Ok (Some l1) ->
    invalidate_cookie fa1 = Ok tt ->
    connect fa2 (endpoint self) (apitoken self) = Ok tt ->
    list_messages fa2 = Ok (Some l2) ->
    invalidate_cookie fa2 = Ok tt ->
    connect fa12 (endpoint self) (apitoken self) = Ok tt ->
    list_messages fa12 = Ok (Some (l1 ++ l2)) ->
    invalidate_cookie fa12 = Ok tt ->
    Forall (fun a => is_Some (a !! "current_severity")) l1 ->
    Forall (fun a => is_Some (a !! "current_severity")) l2 ->
    l2 <> [] ->
    outcome (probe fa2 (final (probe fa1 self)))
    = outcome (probe fa12 self)
    /\ final (probe fa2 (final (probe fa1 self)))
       = final (probe fa12 self).
Proof.
  intros fa1 fa2 fa12 self l1 l2 A1 A2 A3 B1 B2 B3 C1 C2 C3 HF1 HF2 Hne.
  rewrite (probe_run fa1 self (Some l1) A1 A2 A3 HF1).
  unfold final at 2 4. cbn [fst snd records].
  rewrite (probe_run fa2 _ (Some l2)); [|done..].
  rewrite (probe_run fa12 self (Some (l1 ++ l2)) C1 C2 C3);
    [|by apply Forall_app].
  unfold outcome, final. cbn [fst snd records].
  rewrite add_counts_add, !count_app.
  assert (falsy (Some l2) = false) as -> by (by destruct l2).
  assert (falsy (Some (l1 ++ l2)) = false) as ->
    by (by destruct l1, l2).
  done.
Qed.

Lemma alert_probe_calls_add_up_witness :
  outcome
    (probe (Samples.reachable (Some [Samples.alert "warning"]) ∅)
       (final
          (probe (Samples.reachable (Some [Samples.alert "critical"]) ∅)
                 (__init__ "array" "token"))))
  = outcome
      (probe (Samples.reachable
                (Some ([Samples.alert "critical"]
                       ++ [Samples.alert "warning"])) ∅)
             (__init__ "array" "token")).
Proof.
  refine (proj1 (alert_probe_calls_add_up
            (Samples.reachable (Some [Samples.alert "critical"]) ∅)
            (Samples.reachable (Some [Samples.alert "warning"]) ∅)
            (Samples.reachable
               (Some ([Samples.alert "critical"]
                      ++ [Samples.alert "warning"])) ∅)
            (__init__ "array" "token")
            [Samples.alert "critical"] [Samples.alert "warning"]
            _ _ _ _ _ _ _ _ _ _ _ _)); try reflexivity.
  - repeat constructor; by eexists.
  - repeat constructor; by eexists.
  - discriminate.
Defined.

(** X7. The REST calls of one [probe], whatever the number of records: the
    session is opened; the alerts are listed only if that succeeded; the
    session cookie is invalidated only if the listing succeeded too.  A
    failed listing leaves the session open. *)
Theorem alert_probe_calls :
  forall fa self,
    trace (probe fa self) =
      CallFlashArray (endpoint self) (apitoken self) ::
      match connect fa (endpoint self) (apitoken self) with
      | Raise _ => []
      | Ok _ =>
          CallListMessages ::
          match list_messages fa with
          | Raise _ => []
          | Ok _ => [CallInvalidateCookie]
          end
      end.
Proof.
  intros fa self.
  assert (trace (probe fa self) = trace (get_alerts fa self)) as ->.
  { unfold probe, bind.
    rewrite (run_eta (get_alerts fa self)) at 1.
    destruct (outcome (get_alerts fa self)) as [x|e]; [|done].
    destruct (falsy x); [cbn; by rewrite app_nil_r|].
    pose proof (loop_trace (records x) (final (get_alerts fa self))) as Hl.
    destruct (for_each _ _ _) as [[[[]|e1] s1] t1];
      unfold trace in Hl; cbn [snd] in Hl; subst t1;
      unfold get_self, ret, trace at 1; cbn; by rewrite app_nil_r. }
  unfold get_alerts, try_except, bind, get_self, perform, ret, raise, trace.
  cbn. destruct (connect fa _ _) as [[]|e1]; cbn; [|done].
  destruct (list_messages fa) as [x|e2]; cbn; [|done].
  by destruct (invalidate_cookie fa) as [[]|e3].
Qed.

Lemma append_dquote_inj s s' : s +:+ dquote = s' +:+ dquote -> s = s'.
Proof.
  revert s'. induction s as [|c s IH]; intros [|c' s'] H; [done|..].
  - change (dquote = String c' (s' +:+ dquote)) in H.
    injection H as _ H. by destruct s'.
  - change (String c (s +:+ dquote) = dquote) in H.
    injection H as _ H. by destruct s.
  - change (String c (s +:+ dquote) = String c' (s' +:+ dquote)) in H.
    injection H as -> H. f_equal. by apply IH.
Qed.

(** X8. The message of the [CheckError] tells the text of the cause and nothing
    else about it: two causes give the same error exactly when they have
    the same text, whatever their exception classes. *)
Theorem rest_error_keeps_text :
  forall e e', rest_error e = rest_error e' <-> text e = text e'.
Proof.
  intros e e'. unfold rest_error, CheckError_. split.
  - intros [= H]. by apply append_dquote_inj.
  - by intros ->.
Qed.

End AlertExtras.

(** ** More on the Occupancy Sampler *)

Module OccupancyExtras.
Import Py purestorage Eff nagiosplugin check_purefa_occpy OccupancyFacts.

(** The calls of a session of [get_space]. *)
Lemma get_space_trace fa self :
  trace (get_space fa self) =
    CallFlashArray (endpoint self) (apitoken self) ::
    match connect fa (endpoint self) (apitoken self) with
    | Raise _ => []
    | Ok _ =>
        match volname self with
        | None =>
            CallGet ::
            match get fa with
            | Ok (_ :: _) => [CallInvalidateCookie]
            | _ => []
            end
        | Some v =>
            CallGetVolume v ::
            match get_volume fa v with
            | Ok _ => [CallInvalidateCookie]
            | Raise _ => []
            end
        end
    end.
Proof.
  unfold get_space, try_except, bind, get_self, perform, lift, ret, raise,
    trace.
  cbn. destruct (connect fa _ _) as [[]|e1]; cbn; [|done].
  destruct (volname self) as [v|]; cbn.
  - destruct (get_volume fa v) as [r|e]; cbn; [|done].
    by destruct (invalidate_cookie fa) as [[]|e].
  - destruct (get fa) as [[|r l]|e]; cbn; [done| |done].
    by destruct (invalidate_cookie fa) as [[]|e].
Qed.

(** X9. The REST calls of one [probe]: the session is opened; then, if that
    succeeded, the array-wide counters are fetched when no volume is named
    and the counters of the named volume otherwise, never both; the session
    cookie is invalidated only if the fetch gave a record.  A failed fetch,
    or an empty list of array-wide records, leaves the session open. *)
Theorem occupancy_probe_calls :
  forall fa self,
    trace (probe fa self) =
      CallFlashArray (endpoint self) (apitoken self) ::
      match connect fa (endpoint self) (apitoken self) with
      | Raise _ => []
      | Ok _ =>
          match volname self with
          | None =>
              CallGet ::
              match get fa with
              | Ok (_ :: _) => [CallInvalidateCookie]
              | _ => []
              end
          | Some v =>
              CallGetVolume v ::
              match get_volume fa v with
              | Ok _ => [CallInvalidateCookie]
              | Raise _ => []
              end
          end
      end.
Proof. intros fa self. rewrite probe_trace. apply get_space_trace. Qed.

(** X10. The resource is named after its mode, "PURE_FA_OCCUPANCY" exactly when
    no volume is named; and once the session is open, it is the name that
    tells which counters [probe] fetches. *)
Theorem occupancy_name_tells_mode :
  forall fa self,
    (OccupancyResource.name self = "PURE_FA_OCCUPANCY"
     <-> volname self = None)
    /\ (OccupancyResource.name self = "PURE_FA_VOL_OCCUPANCY"
        <-> exists v, volname self = Some v)
    /\ (connect fa (endpoint self) (apitoken self) = Ok tt ->
        (In CallGet (trace (probe fa self))
         <-> OccupancyResource.name self = "PURE_FA_OCCUPANCY")).
Proof.
  intros fa self. unfold OccupancyResource.name.
  split; [|split].
  - destruct (volname self); split; done.
  - destruct (volname self) as [v|]; split; try done.
    + by exists v.
    + by intros [v ?].
  - intros Hc. rewrite probe_trace, get_space_trace, Hc.
    destruct (volname self) as [v|].
    + split; [|done]. destruct (get_volume fa v); cbn; intuition congruence.
    + split; [done|]. intros _. cbn. auto.
Qed.

Lemma occupancy_name_tells_mode_witness :
  In CallGet
     (trace (probe (Samples.reachable None ∅)
                   (__init__ "array" "token" None true))).
Proof.
  apply (proj2 (proj2 (occupancy_name_tells_mode
                         (Samples.reachable None ∅)
                         (__init__ "array" "token" None true)))).
  - reflexivity.
  - reflexivity.
Defined.

(** X11. An empty list of array-wide records is reported like a failure of the
    REST call: [probe] raises the [CheckError] that carries the text of
    Python's IndexError, after two calls, and the instance is untouched. *)
Theorem occupancy_empty_listing :
  forall fa self,
    volname self = None ->
    connect fa (endpoint self) (apitoken self) = Ok tt ->
    get fa = Ok [] ->
    probe fa self =
      (Raise
         (CheckError_
            ("FA REST call returned " +:+ dquote
             +:+ "list index out of range" +:+ dquote)),
       self,
       [CallFlashArray (endpoint self) (apitoken self); CallGet]).
Proof.
  intros fa self Hv Hc Hg.
  rewrite (run_eta (probe fa self)), probe_final, probe_trace.
  rewrite get_space_trace, Hc, Hv, Hg.
  rewrite (probe_not_fetched fa self (rest_error
             (Exn IndexError "list index out of range"))); [done|].
  destruct (FetchFacts.get_space_session fa self) as (_ & _ & _ & H & _).
  cbv zeta in H. apply H; [done|]. by rewrite Hv, Hg.
Qed.

Lemma occupancy_empty_listing_witness :
  probe {| connect := fun _ _ => Ok tt; list_messages := Ok None;
           get := Ok []; get_volume := fun _ => Ok ∅;
           invalidate_cookie := Ok tt |}
        (__init__ "array" "token" None false) =
    (Raise
       (CheckError_
          ("FA REST call returned " +:+ dquote
           +:+ "list index out of range" +:+ dquote)),
     __init__ "array" "token" None false,
     [CallFlashArray "array" "token"; CallGet]).
Proof.
  apply (occupancy_empty_listing
           {| connect := fun _ _ => Ok tt; list_messages := Ok None;
              get := Ok []; get_volume := fun _ => Ok ∅;
              invalidate_cookie := Ok tt |}
           (__init__ "array" "token" None false)).
  - reflexivity.
  - reflexivity.
  - reflexivity.
Defined.

(** X12. [probe] of the Occupancy Sampler keeps no state: it leaves the instance
    as it found it, so a second call on the same array returns the same
    result and makes the same calls as the first. *)
Theorem occupancy_probe_repeatable :
  forall fa self,
    final (probe fa self) = self
    /\ probe fa (final (probe fa self)) = probe fa self.
Proof. intros fa self. by rewrite probe_final. Qed.





(** X15. [probe] reads of the fetched record only the fields of its mode:
    [total] and [capacity] array-wide, [total] and [size] for a volume in
    percentage mode, [volumes] for a volume in byte mode.  Two records that
    are not empty and agree on these fields give the same result. *)
Theorem occupancy_probe_reads_its_fields_only :
  forall fa fa' self r r',
    outcome (get_space fa self) = Ok r ->
    outcome (get_space fa' self) = Ok r' ->
    falsy r = false ->
    falsy r' = false ->
    match volname self with
    | None => r !! "total" = r' !! "total"
              /\ r !! "capacity" = r' !! "capacity"
    | Some _ =>
        if percentage self
        then r !! "total" = r' !! "total" /\ r !! "size" = r' !! "size"
        else r !! "volumes" = r' !! "volumes"
    end ->
    outcome (probe fa self) = outcome (probe fa' self).
Proof.
  intros fa fa' self r r' Hr Hr' Hne Hne' Hsame.
  rewrite (probe_fetched fa self r Hr), (probe_fetched fa' self r' Hr').
  rewrite Hne, Hne'.
  destruct (volname self) as [v|]; [destruct (percentage self)|].
  - destruct Hsame as [-> ->]. done.
  - by rewrite Hsame.
  - destruct Hsame as [-> ->]. done.
Qed.

Lemma occupancy_probe_reads_its_fields_only_witness :
  outcome
    (probe (Samples.reachable None
              {[ "total" := 50; "capacity" := 200; "volumes" := 7 ]})
           (__init__ "array" "token" None false))
  = outcome
      (probe (Samples.reachable None {[ "total" := 50; "capacity" := 200 ]})
             (__init__ "array" "token" None false)).
Proof.
  apply (occupancy_probe_reads_its_fields_only
           (Samples.reachable None
              {[ "total" := 50; "capacity" := 200; "volumes" := 7 ]})
           (Samples.reachable None {[ "total" := 50; "capacity" := 200 ]})
           (__init__ "array" "token" None false)
           {[ "total" := 50; "capacity" := 200; "volumes" := 7 ]}
           {[ "total" := 50; "capacity" := 200 ]}).
  - reflexivity.
  - reflexivity.
  - reflexivity.
  - reflexivity.
  - split; reflexivity.
Defined.

(** X16. Array-wide, [probe] uses the first record of the list the array
    returns and nothing of the others. *)
Theorem occupancy_array_first_record_only :
  forall fa fa' self r rest rest',
    volname self = None ->
    get fa = Ok (r :: rest) ->
    get fa' = Ok (r :: rest') ->
    connect fa' (endpoint self) (apitoken self)
    = connect fa (endpoint self) (apitoken self) ->
    invalidate_cookie fa' = invalidate_cookie fa ->
    probe fa' self = probe fa self.
Proof.
  intros fa fa' self r rest rest' Hv Hg Hg' Hc Hi.
  assert (get_space fa' self = get_space fa self) as Hs.
  { unfold get_space, try_except, bind, get_self, perform, lift, ret, raise.
    cbn. by rewrite Hc, Hv, Hg, Hg', Hi. }
  unfold probe, bind. by rewrite Hs.
Qed.

Lemma occupancy_array_first_record_only_witness :
  probe {| connect := fun _ _ => Ok tt; list_messages := Ok None;
           get := Ok [ {[ "total" := 50; "capacity" := 200 ]};
                       {[ "total" := 1; "capacity" := 1 ]} ];
           get_volume := fun _ => Ok ∅; invalidate_cookie := Ok tt |}
        (__init__ "array" "token" None false)
  = probe (Samples.reachable None {[ "total" := 50; "capacity" := 200 ]})
          (__init__ "array" "token" None false).
Proof.
  apply (occupancy_array_first_record_only
           (Samples.reachable None {[ "total" := 50; "capacity" := 200 ]})
           {| connect := fun _ _ => Ok tt; list_messages := Ok None;
              get := Ok [ {[ "total" := 50; "capacity" := 200 ]};
                          {[ "total" := 1; "capacity" := 1 ]} ];
              get_volume := fun _ => Ok ∅; invalidate_cookie := Ok tt |}
           (__init__ "array" "token" None false)
           {[ "total" := 50; "capacity" := 200 ]} []
           [ {[ "total" := 1; "capacity" := 1 ]} ]).
  - reflexivity.
  - reflexivity.
  - reflexivity.
  - reflexivity.
  - reflexivity.
Defined.

End OccupancyExtras.
